(** * Offline queue, point of sale and stock control of the POS application

    A shallow embedding of the React components that make up the
    offline-resilient core of the application:

    - [PwaContext]   : the provider holding the network status and the
                       pending-operation queue (PwaContext.tsx);
    - [POSInterface] : the cashier screen with the cart and the checkout
                       handler (POSInterface.tsx);
    - [StockControl] : the stock screen with the start/end selling handlers
                       (StockControl.tsx, the per-store localStorage variant);
    - [StockControlRemote] : the start-selling handler of the variant of
                       that screen that writes the [store_stocks] table of
                       the remote database;
    - [PwaProvider], [POSMount], [StockControlMount] : the connectivity
                       listeners and the mount effects of these components;
    - [StockControlStores] : the stock screen of a manager with several
                       stores (pages/manager/StockControl.tsx);
    - [TransactionHistory] : the loading and the pager of the history
                       screen (TransactionHistory.tsx);
    - [App]          : the route table (App.tsx);
    - [LoadedMenu]   : the two cart handlers of the cashier screen over menu
                       entries as they come out of localStorage, where the
                       [stock] field may be missing.

    JavaScript numbers that hold counts and prices are integers here ([Z],
    subtraction may go below zero exactly as in the source); prices with a
    fraction, and totals beyond the integers a double holds exactly, are
    outside the model.  A handler is a function from the state it closes
    over to the state with its updates applied; notifications, localStorage
    and the router are explicit components of that state, and the effect
    that stores the queue is the separate step [PwaContext.commit]. *)

From Stdlib Require Import ZArith List Bool Lia Ascii.
From stdpp Require Import base strings gmap list pretty.
Import ListNotations.

(** ** Data model *)

(** [interface MenuItem] of POSInterface.tsx, which declares [stock] a
    number.  A menu entry read from localStorage that carries no [stock]
    (the menu editor writes such entries) is a [LoadedItem.t], below. *)
Module MenuItem.
Record t := mk {
  id : string;
  name : string;
  description : string;
  cashPrice : Z;
  qrisPrice : Z;
  categoryId : string;
  categoryName : string;
  image : option string;
  stock : Z
}.

(** [{ ...item, stock: s }] *)
Definition with_stock (s : Z) (m : t) : t :=
  mk (id m) (name m) (description m) (cashPrice m) (qrisPrice m)
     (categoryId m) (categoryName m) (image m) s.
End MenuItem.

(** [interface CartItem extends MenuItem { quantity }]: the menu item as it
    was when the line was created, plus the requested quantity. *)
Module CartItem.
Record t := mk {
  item : MenuItem.t;
  quantity : Z
}.

Definition id (c : t) : string := MenuItem.id (item c).

(** [{ ...cartItem, quantity: q }] *)
Definition with_quantity (q : Z) (c : t) : t := mk (item c) q.
End CartItem.

Inductive PaymentMethod := cash | qris.

(** [interface Transaction] of POSInterface.tsx. *)
Module Transaction.
Record t := mk {
  id : string;
  items : list CartItem.t;
  total : Z;
  paymentMethod : PaymentMethod;
  timestamp : string;
  storeId : string;
  cashierId : string
}.
End Transaction.

(** [interface StockItem] of StockControl.tsx. *)
Module StockItem.
Record t := mk {
  id : string;
  name : string;
  currentStock : Z;
  minimumStock : Z;
  initialStock : Z
}.

(** [{ ...item, currentStock: s }] *)
Definition with_currentStock (s : Z) (i : t) : t :=
  mk (id i) (name i) s (minimumStock i) (initialStock i).
End StockItem.

(** [interface StockItem] of the remote-backed StockControl.tsx, which adds
    the store an item's stock is shown for. *)
Module StoreStockItem.
Record t := mk {
  id : string;
  name : string;
  currentStock : Z;
  minimumStock : Z;
  initialStock : Z;
  storeId : string
}.

(** [{ ...item, currentStock: s, storeId: store }] *)
Definition with_stock_of (s : Z) (store : string) (i : t) : t :=
  mk (id i) (name i) s (minimumStock i) (initialStock i) store.
End StoreStockItem.

(** [interface Store] of the remote-backed StockControl.tsx. *)
Module Store.
Record t := mk {
  id : string;
  name : string;
  branchId : string
}.
End Store.

(** The fields of [interface User] (AuthContext.tsx) that the handlers read;
    [storeId] and [branchId] are optional in the source. *)
Module User.
Record t := mk {
  id : string;
  storeId : option string;
  branchId : option string
}.
End User.

(** [user?.storeId] and [user?.branchId] on a possibly null user. *)
Definition user_storeId (user : option User.t) : option string :=
  user ≫= User.storeId.

Definition user_branchId (user : option User.t) : option string :=
  user ≫= User.branchId.

(** An optional string interpolated into a template literal. *)
Definition interpolate (o : option string) : string :=
  default "undefined" o.

(** [o || ''] for an optional string: the empty string is falsy too. *)
Definition or_empty (o : option string) : string := default "" o.

(** The values found in the fields of a queued operation.  An operation is
    typed [any] in the source; these are the payload shapes the modelled
    callers build. *)
Inductive JsVal :=
| JString (s : string)
| JTransaction (t : Transaction.t)
| JStockUpdate (items : list (string * Z))
| JStartSelling (storeId branchId : option string)
                (items : list StockItem.t) (timestamp : string)
| JStartSellingStore (storeId : string) (branchId : option string)
                     (items : list StoreStockItem.t) (timestamp : string)
| JEndSelling (storeId branchId : option string) (timestamp : string)
| JUpdateStockItem (storeId branchId : option string)
                   (itemId : string) (newStock : Z) (timestamp : string).

(** A queued operation is a plain JavaScript object. *)
Abbreviation Operation := (gmap string JsVal).

(** [{ type: ty, data: d }] *)
Definition operation (ty : string) (d : JsVal) : Operation :=
  <["data" := d]> (<["type" := JString ty]> ∅).

(** A localStorage value.  Values are JSON texts; a text is represented by
    the value [JSON.parse] returns for it, so [JSON.parse (JSON.stringify v)]
    is [v] on these shapes.  [SText] is a text stored as it is, such as
    ['true']. *)
Inductive Stored :=
| SText (s : string)
| SOperations (l : list Operation)
| STransactions (l : list Transaction.t)
| SMenuItems (l : list MenuItem.t)
| SStockItems (l : list StockItem.t)
| SStoreStockItems (l : list StoreStockItem.t)
| SStrings (l : list string).

Inductive Variant := default_variant | destructive.

(** The argument of [toast(...)]. *)
Module Toast.
Record t := mk {
  title : string;
  description : string;
  variant : Variant
}.
End Toast.

Inductive NetworkStatus := online | offline.

Definition is_offline (n : NetworkStatus) : bool :=
  match n with offline => true | online => false end.

(** ** The state shared by the components

    [networkStatus] and [pendingOperations] are the [useState] cells of
    [PwaProvider]; [localStorage] is the browser's store for the origin;
    [toasts] is the list of notifications raised so far, oldest first;
    [location] is the target of the last [navigate(...)]. *)
Record World := mkWorld {
  localStorage : gmap string Stored;
  toasts : list Toast.t;
  location : option string;
  networkStatus : NetworkStatus;
  pendingOperations : list Operation
}.

(** [toast({...})] *)
Definition toast (t : Toast.t) (w : World) : World :=
  mkWorld (localStorage w) (toasts w ++ [t]) (location w)
          (networkStatus w) (pendingOperations w).

(** [localStorage.setItem(key, value)] *)
Definition setItem (key : string) (v : Stored) (w : World) : World :=
  mkWorld (<[key := v]> (localStorage w)) (toasts w) (location w)
          (networkStatus w) (pendingOperations w).

(** [localStorage.getItem(key)] *)
Definition getItem (key : string) (w : World) : option Stored :=
  localStorage w !! key.

(** [navigate(url)] *)
Definition navigate (url : string) (w : World) : World :=
  mkWorld (localStorage w) (toasts w) (Some url)
          (networkStatus w) (pendingOperations w).

(** [setPendingOperations(prev => f(prev))] *)
Definition setPendingOperations (f : list Operation → list Operation)
    (w : World) : World :=
  mkWorld (localStorage w) (toasts w) (location w)
          (networkStatus w) (f (pendingOperations w)).

(** ** PwaContext.tsx *)
Module PwaContext.

(** [addPendingOperation(operation)]; [now] is [new Date().toISOString()]. *)
Definition addPendingOperation (now : string) (operation : Operation)
    (w : World) : World :=
  setPendingOperations
    (fun prev => prev ++ [<["timestamp" := JString now]> operation]) w.

(** [clearPendingOperations()] *)
Definition clearPendingOperations (w : World) : World :=
  setPendingOperations (fun _ => []) w.

(** [processPendingOperations()].  The body of the [try] raises a
    notification and clears the queue; neither can throw, so the [catch]
    branch with its "Sync failed" notification is never entered.  No remote
    call is made. *)
Definition processPendingOperations (w : World) : World :=
  if is_offline (networkStatus w)
     || (length (pendingOperations w) =? 0)%nat
  then w
  else
    clearPendingOperations
      (toast (Toast.mk "Sync complete"
                ("Successfully synced "
                 +:+ pretty (length (pendingOperations w))
                 +:+ " operations with the server.")
                default_variant) w).

(** The effect with dependency [[pendingOperations]]: it runs at the commit
    that follows every change of the queue (and at mount). *)
Definition storePendingOperations (w : World) : World :=
  setItem "pendingOperations" (SOperations (pendingOperations w)) w.

(** The state after the commit that follows a handler. *)
Definition commit (w : World) : World := storePendingOperations w.

(** A page reload: [PwaProvider] is mounted afresh over the localStorage the
    previous page left.  The first render has an empty queue; the mount
    effect reads the stored queue and schedules it as the new state, the
    storing effect of that first commit writes the empty queue, and the
    re-render stores the loaded queue.  [navigatorOnLine] is
    [navigator.onLine].  A stored text that does not parse to a queue is not
    modelled ([None]). *)
Definition reload (navigatorOnLine : bool) (w : World) : option World :=
  let first :=
    mkWorld (localStorage w) [] (location w)
            (if navigatorOnLine then online else offline) [] in
  let storedOperations := getItem "pendingOperations" first in
  let mounted := storePendingOperations first in
  match storedOperations with
  | None => Some mounted
  | Some (SText "") => Some mounted
  | Some (SOperations l) =>
      Some (storePendingOperations (setPendingOperations (fun _ => l) mounted))
  | Some _ => None
  end.

End PwaContext.

(** ** POSInterface.tsx *)
Module POSInterface.

Local Open Scope Z_scope.

(** The [useState] cells of [POSInterface] that the handlers read or
    write. *)
Record State := mkState {
  menuItems : list MenuItem.t;
  cart : list CartItem.t;
  paymentMethod : PaymentMethod;
  isHolidayMode : bool
}.

(** [setCart(prevCart => f(prevCart))] *)
Definition setCart (f : list CartItem.t → list CartItem.t) (s : State)
    : State :=
  mkState (menuItems s) (f (cart s)) (paymentMethod s) (isHolidayMode s).

(** [setMenuItems(items)] *)
Definition setMenuItems (items : list MenuItem.t) (s : State) : State :=
  mkState items (cart s) (paymentMethod s) (isHolidayMode s).

(** [addToCart(item)] *)
Definition addToCart (item : MenuItem.t) (sw : State * World)
    : State * World :=
  let (s, w) := sw in
  if MenuItem.stock item <=? 0 then
    (s, toast (Toast.mk "Out of stock"
                 (MenuItem.name item +:+ " is out of stock.")
                 destructive) w)
  else
    match find (fun cartItem => String.eqb (CartItem.id cartItem)
                                           (MenuItem.id item)) (cart s) with
    | Some existingItem =>
        if CartItem.quantity existingItem >=? MenuItem.stock item then
          (s, toast (Toast.mk "Stock limit reached"
                       ("Only " +:+ pretty (MenuItem.stock item) +:+ " "
                        +:+ MenuItem.name item +:+ " available in stock.")
                       destructive) w)
        else
          (setCart
             (map (fun cartItem =>
                     if String.eqb (CartItem.id cartItem) (MenuItem.id item)
                     then CartItem.with_quantity
                            (CartItem.quantity cartItem + 1) cartItem
                     else cartItem)) s, w)
    | None =>
        (setCart (fun prevCart => prevCart ++ [CartItem.mk item 1]) s, w)
    end.

(** [removeFromCart(itemId)] *)
Definition removeFromCart (itemId : string) (s : State) : State :=
  setCart (filter (fun item => negb (String.eqb (CartItem.id item) itemId))) s.

(** [clearCart()] *)
Definition clearCart (s : State) : State := setCart (fun _ => []) s.

(** [updateCartItemQuantity(itemId, newQuantity)] *)
Definition updateCartItemQuantity (itemId : string) (newQuantity : Z)
    (sw : State * World) : State * World :=
  let (s, w) := sw in
  if newQuantity <=? 0 then (removeFromCart itemId s, w)
  else
    let update :=
      setCart (map (fun item =>
                      if String.eqb (CartItem.id item) itemId
                      then CartItem.with_quantity newQuantity item
                      else item)) s in
    match find (fun item => String.eqb (MenuItem.id item) itemId)
               (menuItems s) with
    | Some item =>
        if newQuantity >? MenuItem.stock item then
          (s, toast (Toast.mk "Stock limit reached"
                       ("Only " +:+ pretty (MenuItem.stock item) +:+ " "
                        +:+ MenuItem.name item +:+ " available in stock.")
                       destructive) w)
        else (update, w)
    | None => (update, w)
    end.

(** [calculateTotal()] *)
Definition calculateTotal (s : State) : Z :=
  fold_left
    (fun total item =>
       let price := match paymentMethod s with
                    | cash => MenuItem.cashPrice (CartItem.item item)
                    | qris => MenuItem.qrisPrice (CartItem.item item)
                    end in
       total + price * CartItem.quantity item)
    (cart s) 0.

(** The stock update of [handleCheckout]: each menu item loses the quantity
    of the first cart line with its id. *)
Definition updatedMenuItems (s : State) : list MenuItem.t :=
  map (fun item =>
         match find (fun cartItem => String.eqb (CartItem.id cartItem)
                                                (MenuItem.id item))
                    (cart s) with
         | Some cartItem =>
             MenuItem.with_stock
               (MenuItem.stock item - CartItem.quantity cartItem) item
         | None => item
         end)
      (menuItems s).

(** [JSON.parse(localStorage.getItem('transactions') || '[]')], the array
    the new transaction is pushed to.  [None] stands for a stored text that
    is no array, on which [JSON.parse] or [push] throws and the [try] block
    is left through its [catch].  The one writer of this key is
    [handleCheckout] itself, which stores a list of transactions; an array
    of other values, which [push] would extend all the same, has no
    counterpart in [STransactions] and is outside the model: the statements
    below are made for a log that is absent or a list of transactions, or,
    for the error path, for a text that cannot be an array. *)
Definition savedTransactions (w : World) : option (list Transaction.t) :=
  match getItem "transactions" w with
  | None => Some []
  | Some (SText "") => Some []
  | Some (STransactions l) => Some l
  | Some _ => None
  end.

(** The clock readings of one [handleCheckout] call, in the order they are
    taken: [Date.now()] for the id, [new Date().toISOString()] for the
    transaction, and one reading by each [addPendingOperation]. *)
Record Clock := mkClock {
  dateNow : Z;
  transactionTime : string;
  createEnqueued : string;
  stockEnqueued : string
}.

Section Checkout.

(** [Number.prototype.toLocaleString], which depends on the browser's
    locale. *)
Variable toLocaleString : Z → string.

(** The transaction record built by [handleCheckout]. *)
Definition newTransaction (user : option User.t) (clock : Clock)
    (s : State) : Transaction.t :=
  Transaction.mk ("TR-" +:+ pretty (dateNow clock))
                 (cart s)
                 (calculateTotal s)
                 (paymentMethod s)
                 (transactionTime clock)
                 (or_empty (user_storeId user))
                 (or_empty (User.id <$> user)).

(** [handleCheckout()] *)
Definition handleCheckout (user : option User.t) (clock : Clock)
    (sw : State * World) : State * World :=
  let (s, w) := sw in
  if isHolidayMode s then
    (s, toast (Toast.mk "Cannot process transaction"
                 "This store is in holiday mode. Transactions are disabled."
                 destructive) w)
  else if (length (cart s) =? 0)%nat then
    (s, toast (Toast.mk "Empty cart"
                 "Please add items to your cart before checkout."
                 destructive) w)
  else
    let transaction := newTransaction user clock s in
    let updated := updatedMenuItems s in
    match savedTransactions w with
    | None =>
        (s, toast (Toast.mk "Error processing transaction"
                     "Please try again." destructive) w)
    | Some transactions =>
        let w1 := setItem "transactions"
                    (STransactions (transactions ++ [transaction])) w in
        let w2 := setItem "menuItems" (SMenuItems updated) w1 in
        let w3 :=
          if is_offline (networkStatus w2) then
            PwaContext.addPendingOperation (stockEnqueued clock)
              (operation "UPDATE_STOCK"
                 (JStockUpdate
                    (map (fun item => (CartItem.id item,
                                       CartItem.quantity item)) (cart s))))
              (PwaContext.addPendingOperation (createEnqueued clock)
                 (operation "CREATE_TRANSACTION" (JTransaction transaction))
                 w2)
          else w2 in
        let w4 := toast (Toast.mk "Transaction complete"
                           ("Total: Rp "
                            +:+ toLocaleString (calculateTotal s))
                           default_variant) w3 in
        (setMenuItems updated s,
         navigate ("/pos/history?transactionId="
                   +:+ Transaction.id transaction) w4)
    end.

End Checkout.

(** The calls a cashier can make on the cart. *)
Inductive CartCall :=
| AddToCart (item : MenuItem.t)
| UpdateQuantity (itemId : string) (newQuantity : Z).

Definition call (c : CartCall) (sw : State * World) : State * World :=
  match c with
  | AddToCart item => addToCart item sw
  | UpdateQuantity itemId newQuantity =>
      updateCartItemQuantity itemId newQuantity sw
  end.

(** A sequence of calls, first call first. *)
Definition calls (cs : list CartCall) (sw : State * World) : State * World :=
  fold_left (fun acc c => call c acc) cs sw.

End POSInterface.

(** ** StockControl.tsx (one store per signed-in user, kept in localStorage) *)
Module StockControl.

Local Open Scope Z_scope.

(** The [useState] cells of [StockControl] that the handlers write. *)
Record State := mkState {
  stockItems : list StockItem.t;
  isSellingStarted : bool;
  showStartSellingDialog : bool;
  showEndSellingDialog : bool
}.

(** The localStorage keys of a store: [`stockItems-${user?.storeId}`] and
    [`sellingStarted-${user?.storeId}`]. *)
Definition stockItemsKey (storeId : option string) : string :=
  "stockItems-" +:+ interpolate storeId.

Definition sellingStartedKey (storeId : option string) : string :=
  "sellingStarted-" +:+ interpolate storeId.

(** The clock readings of a start or end of selling: the timestamp put in
    the payload and the one taken by [addPendingOperation]. *)
Record Clock := mkClock {
  payloadTime : string;
  enqueued : string
}.

(** [handleStartSelling()] *)
Definition handleStartSelling (user : option User.t) (clock : Clock)
    (sw : State * World) : State * World :=
  let (s, w) := sw in
  let updatedItems :=
    map (fun item =>
           StockItem.with_currentStock (StockItem.initialStock item) item)
        (stockItems s) in
  let w1 := setItem (stockItemsKey (user_storeId user))
                    (SStockItems updatedItems) w in
  let w2 := setItem (sellingStartedKey (user_storeId user))
                    (SText "true") w1 in
  let w3 :=
    if is_offline (networkStatus w2) then
      PwaContext.addPendingOperation (enqueued clock)
        (operation "START_SELLING"
           (JStartSelling (user_storeId user) (user_branchId user)
                          updatedItems (payloadTime clock))) w2
    else w2 in
  (mkState updatedItems true false (showEndSellingDialog s),
   toast (Toast.mk "Selling started"
            "Initial stock levels have been set for all items."
            default_variant) w3).

(** [handleEndSelling()] *)
Definition handleEndSelling (user : option User.t) (clock : Clock)
    (sw : State * World) : State * World :=
  let (s, w) := sw in
  let updatedItems :=
    map (fun item => StockItem.with_currentStock 0 item) (stockItems s) in
  let w1 := setItem (stockItemsKey (user_storeId user))
                    (SStockItems updatedItems) w in
  let w2 := setItem (sellingStartedKey (user_storeId user))
                    (SText "false") w1 in
  let w3 :=
    if is_offline (networkStatus w2) then
      PwaContext.addPendingOperation (enqueued clock)
        (operation "END_SELLING"
           (JEndSelling (user_storeId user) (user_branchId user)
                        (payloadTime clock))) w2
    else w2 in
  (mkState updatedItems false (showStartSellingDialog s) false,
   toast (Toast.mk "Selling ended"
            "All stock levels have been reset to zero."
            default_variant) w3).

(** [handleStockChange(itemId, newStock)] *)
Definition handleStockChange (user : option User.t) (clock : Clock)
    (itemId : string) (newStock : Z) (sw : State * World) : State * World :=
  let (s, w) := sw in
  if newStock <? 0 then
    (s, toast (Toast.mk "Invalid stock value" "Stock cannot be negative."
                 destructive) w)
  else
    let updatedItems :=
      map (fun item =>
             if String.eqb (StockItem.id item) itemId
             then StockItem.with_currentStock newStock item
             else item)
          (stockItems s) in
    let w1 := setItem (stockItemsKey (user_storeId user))
                      (SStockItems updatedItems) w in
    let w2 :=
      if is_offline (networkStatus w1) then
        PwaContext.addPendingOperation (enqueued clock)
          (operation "UPDATE_STOCK_ITEM"
             (JUpdateStockItem (user_storeId user) (user_branchId user)
                               itemId newStock (payloadTime clock))) w1
      else w1 in
    (mkState updatedItems (isSellingStarted s) (showStartSellingDialog s)
             (showEndSellingDialog s), w2).

End StockControl.

(** ** StockControl.tsx (several stores, backed by the remote database) *)
Module StockControlRemote.

Local Open Scope Z_scope.

(** The [useState] cells of this [StockControl] that [handleStartSelling]
    reads or writes. *)
Record State := mkState {
  stockItems : list StoreStockItem.t;
  stores : list Store.t;
  selectedStoreId : string;
  sellingStartedStores : list string;
  showStartSellingDialog : bool
}.

(** A request sent to the [store_stocks] table. *)
Inductive Request :=
| SelectId (store_id stock_item_id selling_date : string)
| Update (id : string) (quantity : Z) (is_active : bool)
| Insert (store_id stock_item_id : string) (quantity : Z) (is_active : bool)
         (selling_date : string).

(** The [{ data, error }] a request resolves to: an error, or the data of a
    [maybeSingle()] (the id of the row found, if any; an update or an insert
    carries no data). *)
Inductive Response :=
| Error
| Data (row : option string).

(** The remote database as the handler sees it: the answer to the last
    request of a history of requests (oldest first).  Nothing is assumed
    about the answers. *)
Definition Remote := list Request → Response.

(** The clock readings of one [handleStartSelling] call: the date read in
    each iteration of the loop ([new Date().toISOString().split('T')[0]]),
    the timestamp put in the payload and the one taken by
    [addPendingOperation]. *)
Record Clock := mkClock {
  today : nat → string;
  payloadTime : string;
  enqueued : string
}.

(** The [for ... of] loop of [handleStartSelling]: for each item, look for
    the row of (store, item, today) and update it, or insert one.  [n] is
    the number of items already handled, [sent] the requests sent so far;
    the result is [false] when a request answered with an error (the
    [throw]). *)
Fixpoint createOrUpdate (remote : Remote) (clock : Clock) (store : string)
    (items : list StoreStockItem.t) (n : nat) (sent : list Request)
    : list Request * bool :=
  match items with
  | [] => (sent, true)
  | item :: rest =>
      let sent1 :=
        sent ++ [SelectId store (StoreStockItem.id item) (today clock n)] in
      match remote sent1 with
      | Error => (sent1, false)
      | Data existingRecord =>
          let sent2 :=
            sent1 ++
            [match existingRecord with
             | Some id =>
                 Update id (StoreStockItem.initialStock item) true
             | None =>
                 Insert store (StoreStockItem.id item)
                        (StoreStockItem.initialStock item) true
                        (today clock n)
             end] in
          match remote sent2 with
          | Error => (sent2, false)
          | Data _ => createOrUpdate remote clock store rest (S n) sent2
          end
      end
  end.

(** [getStoreName(storeId)] *)
Definition getStoreName (s : State) (storeId : string) : string :=
  match find (fun store => String.eqb (Store.id store) storeId) (stores s) with
  | Some store => Store.name store
  | None => "Unknown Store"
  end.

(** [handleStartSelling()]; the third component is the list of requests
    sent to the remote database. *)
Definition handleStartSelling (remote : Remote) (user : option User.t)
    (clock : Clock) (sw : State * World) : State * World * list Request :=
  let (s, w) := sw in
  if String.eqb (selectedStoreId s) "" then
    (s, toast (Toast.mk "Store not selected" "Please select a store first."
                 destructive) w, [])
  else
    let updatedItems :=
      map (fun item =>
             StoreStockItem.with_stock_of (StoreStockItem.initialStock item)
                                          (selectedStoreId s) item)
          (stockItems s) in
    match createOrUpdate remote clock (selectedStoreId s) updatedItems 0%nat []
    with
    | (sent, true) =>
        let started := sellingStartedStores s ++ [selectedStoreId s] in
        let w1 := setItem "stockItems" (SStoreStockItems updatedItems) w in
        let w2 := setItem "sellingStartedStores" (SStrings started) w1 in
        let w3 :=
          if is_offline (networkStatus w2) then
            PwaContext.addPendingOperation (enqueued clock)
              (operation "START_SELLING"
                 (JStartSellingStore (selectedStoreId s) (user_branchId user)
                    (filter (fun item =>
                               String.eqb (StoreStockItem.storeId item)
                                          (selectedStoreId s)) updatedItems)
                    (payloadTime clock))) w2
          else w2 in
        (mkState updatedItems (stores s) (selectedStoreId s) started false,
         toast (Toast.mk "Selling started"
                  ("Initial stock levels have been set for "
                   +:+ getStoreName s (selectedStoreId s) +:+ ".")
                  default_variant) w3,
         sent)
    | (sent, false) =>
        (mkState (stockItems s) (stores s) (selectedStoreId s)
                 (sellingStartedStores s) false,
         toast (Toast.mk "Error"
                  "Could not start selling. Please try again."
                  destructive) w,
         sent)
    end.

(** [isSellingStarted(storeId)] *)
Definition isSellingStarted (s : State) (storeId : string) : bool :=
  existsb (String.eqb storeId) (sellingStartedStores s).

End StockControlRemote.

(** ** PwaContext.tsx: the connectivity listeners *)
Module PwaProvider.

(** [setNetworkStatus(status)] *)
Definition setNetworkStatus (status : NetworkStatus) (w : World) : World :=
  mkWorld (localStorage w) (toasts w) (location w) status
          (pendingOperations w).

(** [processPendingOperations] as the closure of one render: it tests the
    [networkStatus] and [pendingOperations] that render was given, while
    its [toast] and [setPendingOperations] act on the live state. *)
Definition processPendingOperationsOf (rendered : NetworkStatus)
    (queue : list Operation) (w : World) : World :=
  if is_offline rendered || (length queue =? 0)%nat
  then w
  else
    PwaContext.clearPendingOperations
      (toast (Toast.mk "Sync complete"
                ("Successfully synced " +:+ pretty (length queue)
                 +:+ " operations with the server.")
                default_variant) w).

(** [handleOnline], the listener of the window's [online] event.  It is
    created by the mount effect (dependency list [[]]), so the
    [processPendingOperations] it calls is the one of the first render:
    [mounted] is the status that render had, and its queue is the initial
    [[]] of [useState]. *)
Definition handleOnline (mounted : NetworkStatus) (w : World) : World :=
  processPendingOperationsOf mounted []
    (toast (Toast.mk "You're back online"
              "Syncing your data with the server..." default_variant)
       (setNetworkStatus online w)).

(** [handleOffline], the listener of the window's [offline] event. *)
Definition handleOffline (w : World) : World :=
  toast (Toast.mk "You're offline"
           "Don't worry, you can still use the app. Changes will sync when you're back online."
           destructive)
    (setNetworkStatus offline w).

End PwaProvider.

(** ** POSInterface.tsx: mounting the screen *)
Module POSMount.

Local Open Scope Z_scope.

(** The initial value of the [menuItems] cell. *)
Definition initialMenuItems : list MenuItem.t :=
  [MenuItem.mk "1" "Iced Coffee" "Cold brewed coffee with ice"
               20000 22000 "1" "Drinks" None 10;
   MenuItem.mk "2" "Hot Coffee" "Freshly brewed hot coffee"
               18000 20000 "1" "Drinks" None 15;
   MenuItem.mk "3" "Sandwich" "Chicken sandwich with veggies"
               25000 27500 "2" "Food" None 8;
   MenuItem.mk "4" "French Fries" "Crispy potato fries"
               15000 16500 "3" "Snacks" None 12].

(** [`holidayMode-${user?.storeId}`] *)
Definition holidayModeKey (storeId : option string) : string :=
  "holidayMode-" +:+ interpolate storeId.

(** [localStorage.getItem(key) === 'true'] *)
Definition isTrue (key : string) (w : World) : bool :=
  match getItem key w with
  | Some (SText t) => String.eqb t "true"
  | _ => false
  end.

(** The mount of [POSInterface], for the cells of [POSInterface.State]:
    the cart starts empty and the payment method is cash; the effect reads
    the holiday flag of the user's store, raising a notification when it is
    set, and replaces the menu by the stored one when there is one.  A
    stored menu text that does not parse to a menu is not modelled
    ([None]). *)
Definition mount (user : option User.t) (w : World)
    : option (POSInterface.State * World) :=
  let holidayMode := isTrue (holidayModeKey (user_storeId user)) w in
  let w1 :=
    if holidayMode then
      toast (Toast.mk "Holiday Mode Active"
               "This store is currently in holiday mode. Transactions are disabled."
               destructive) w
    else w in
  match getItem "menuItems" w with
  | None | Some (SText "") =>
      Some (POSInterface.mkState initialMenuItems [] cash holidayMode, w1)
  | Some (SMenuItems savedMenuItems) =>
      Some (POSInterface.mkState savedMenuItems [] cash holidayMode, w1)
  | Some _ => None
  end.

End POSMount.

(** ** StockControl.tsx (one store per user): mounting the screen *)
Module StockControlMount.

Local Open Scope Z_scope.

(** [mockStockItems] *)
Definition mockStockItems : list StockItem.t :=
  [StockItem.mk "1" "Iced Coffee" 0 5 10;
   StockItem.mk "2" "Hot Coffee" 0 5 15;
   StockItem.mk "3" "Sandwich" 0 3 8;
   StockItem.mk "4" "French Fries" 0 4 12].

(** The mount effect of [StockControl]: while the store's selling flag is
    ['true'] the stored stock list is shown (the mock list when none is
    stored), otherwise the mock list.  A stored text that does not parse to
    a stock list is not modelled ([None]). *)
Definition mount (user : option User.t) (w : World)
    : option StockControl.State :=
  let sellingStarted :=
    POSMount.isTrue (StockControl.sellingStartedKey (user_storeId user)) w in
  if sellingStarted then
    match getItem (StockControl.stockItemsKey (user_storeId user)) w with
    | None | Some (SText "") =>
        Some (StockControl.mkState mockStockItems true false false)
    | Some (SStockItems savedStockItems) =>
        Some (StockControl.mkState savedStockItems true false false)
    | Some _ => None
    end
  else Some (StockControl.mkState mockStockItems false false false).

(** The calls a manager can make on the stock screen. *)
Inductive StockCall :=
| StartSelling
| EndSelling
| StockChange (itemId : string) (newStock : Z).

Definition call (user : option User.t) (clock : StockControl.Clock)
    (c : StockCall) (sw : StockControl.State * World)
    : StockControl.State * World :=
  match c with
  | StartSelling => StockControl.handleStartSelling user clock sw
  | EndSelling => StockControl.handleEndSelling user clock sw
  | StockChange itemId newStock =>
      StockControl.handleStockChange user clock itemId newStock sw
  end.

(** A sequence of calls, first call first. *)
Definition calls (user : option User.t) (clock : StockControl.Clock)
    (cs : list StockCall) (sw : StockControl.State * World)
    : StockControl.State * World :=
  fold_left (fun acc c => call user clock c acc) cs sw.

End StockControlMount.

(** ** StockControl.tsx (several stores, kept in localStorage) *)
Module StockControlStores.

Local Open Scope Z_scope.

(** The [useState] cells of this [StockControl] that the handlers read or
    write. *)
Record State := mkState {
  stockItems : list StoreStockItem.t;
  stores : list Store.t;
  selectedStoreId : string;
  sellingStartedStores : list string;
  showStartSellingDialog : bool;
  showEndSellingDialog : bool
}.

Record Clock := mkClock {
  payloadTime : string;
  enqueued : string
}.

(** [isSellingStarted(storeId)] *)
Definition isSellingStarted (s : State) (storeId : string) : bool :=
  existsb (String.eqb storeId) (sellingStartedStores s).

(** [getStoreName(storeId)] *)
Definition getStoreName (s : State) (storeId : string) : string :=
  match find (fun store => String.eqb (Store.id store) storeId) (stores s) with
  | Some store => Store.name store
  | None => "Unknown Store"
  end.

(** The notification both selling handlers raise when no store is
    selected. *)
Definition storeNotSelected : Toast.t :=
  Toast.mk "Store not selected" "Please select a store first." destructive.

(** [handleStartSelling()] *)
Definition handleStartSelling (user : option User.t) (clock : Clock)
    (sw : State * World) : State * World :=
  let (s, w) := sw in
  if String.eqb (selectedStoreId s) "" then (s, toast storeNotSelected w)
  else
    let updatedItems :=
      map (fun item =>
             if String.eqb (StoreStockItem.storeId item) ""
                || String.eqb (StoreStockItem.storeId item)
                              (selectedStoreId s)
             then StoreStockItem.with_stock_of
                    (StoreStockItem.initialStock item) (selectedStoreId s)
                    item
             else item)
          (stockItems s) in
    let updatedSellingStarted :=
      sellingStartedStores s ++ [selectedStoreId s] in
    let w1 := setItem "stockItems" (SStoreStockItems updatedItems) w in
    let w2 := setItem "sellingStartedStores"
                      (SStrings updatedSellingStarted) w1 in
    let w3 :=
      if is_offline (networkStatus w2) then
        PwaContext.addPendingOperation (enqueued clock)
          (operation "START_SELLING"
             (JStartSellingStore (selectedStoreId s) (user_branchId user)
                (filter (fun item =>
                           String.eqb (StoreStockItem.storeId item)
                                      (selectedStoreId s)) updatedItems)
                (payloadTime clock))) w2
      else w2 in
    (mkState updatedItems (stores s) (selectedStoreId s)
             updatedSellingStarted false (showEndSellingDialog s),
     toast (Toast.mk "Selling started"
              ("Initial stock levels have been set for "
               +:+ getStoreName s (selectedStoreId s) +:+ ".")
              default_variant) w3).

(** [handleEndSelling()] *)
Definition handleEndSelling (user : option User.t) (clock : Clock)
    (sw : State * World) : State * World :=
  let (s, w) := sw in
  if String.eqb (selectedStoreId s) "" then (s, toast storeNotSelected w)
  else
    let updatedItems :=
      map (fun item =>
             if String.eqb (StoreStockItem.storeId item) (selectedStoreId s)
             then StoreStockItem.with_stock_of 0 (StoreStockItem.storeId item)
                                               item
             else item)
          (stockItems s) in
    let updatedSellingStarted :=
      filter (fun id => negb (String.eqb id (selectedStoreId s)))
             (sellingStartedStores s) in
    let w1 := setItem "stockItems" (SStoreStockItems updatedItems) w in
    let w2 := setItem "sellingStartedStores"
                      (SStrings updatedSellingStarted) w1 in
    let w3 :=
      if is_offline (networkStatus w2) then
        PwaContext.addPendingOperation (enqueued clock)
          (operation "END_SELLING"
             (JEndSelling (Some (selectedStoreId s)) (user_branchId user)
                          (payloadTime clock))) w2
      else w2 in
    (mkState updatedItems (stores s) (selectedStoreId s)
             updatedSellingStarted (showStartSellingDialog s) false,
     toast (Toast.mk "Selling ended"
              ("Stock levels have been reset to zero for "
               +:+ getStoreName s (selectedStoreId s) +:+ ".")
              default_variant) w3).

(** [handleStockChange(itemId, newStock)] *)
Definition handleStockChange (user : option User.t) (clock : Clock)
    (itemId : string) (newStock : Z) (sw : State * World) : State * World :=
  let (s, w) := sw in
  if newStock <? 0 then
    (s, toast (Toast.mk "Invalid stock value" "Stock cannot be negative."
                 destructive) w)
  else
    let updatedItems :=
      map (fun item =>
             if String.eqb (StoreStockItem.id item) itemId
             then StoreStockItem.with_stock_of newStock (selectedStoreId s)
                                               item
             else item)
          (stockItems s) in
    let w1 := setItem "stockItems" (SStoreStockItems updatedItems) w in
    let w2 :=
      if is_offline (networkStatus w1) then
        PwaContext.addPendingOperation (enqueued clock)
          (operation "UPDATE_STOCK_ITEM"
             (JUpdateStockItem (Some (selectedStoreId s)) (user_branchId user)
                               itemId newStock (payloadTime clock))) w1
      else w1 in
    (mkState updatedItems (stores s) (selectedStoreId s)
             (sellingStartedStores s) (showStartSellingDialog s)
             (showEndSellingDialog s), w2).

End StockControlStores.

(** ** TransactionHistory.tsx *)
Module TransactionHistory.

Local Open Scope Z_scope.

(** The [useState] cells the mount effect and the pager write. *)
Record State := mkState {
  transactions : list Transaction.t;
  highlightedTransactionId : option string;
  selectedTransaction : option Transaction.t;
  currentPage : Z
}.

Definition transactionsPerPage : Z := 10.

(** [Array.prototype.slice(start, end)] *)
Definition slice {A} (start final : Z) (l : list A) : list A :=
  let len := Z.of_nat (length l) in
  let k := if start <? 0 then Z.max (len + start) 0 else Z.min start len in
  let e := if final <? 0 then Z.max (len + final) 0 else Z.min final len in
  take (Z.to_nat (e - k)) (drop (Z.to_nat k) l).

(** [Math.ceil(filteredTransactions.length / transactionsPerPage)] *)
Definition totalPages (filteredTransactions : list Transaction.t) : Z :=
  (Z.of_nat (length filteredTransactions) + transactionsPerPage - 1)
  / transactionsPerPage.

(** [paginatedTransactions] *)
Definition paginatedTransactions (currentPage : Z)
    (filteredTransactions : list Transaction.t) : list Transaction.t :=
  let startIndex := (currentPage - 1) * transactionsPerPage in
  slice startIndex (startIndex + transactionsPerPage) filteredTransactions.

(** The three page controls: [Math.max(1, p - 1)], [i + 1] for the
    [i]-th page link, [Math.min(totalPages, p + 1)]. *)
Definition previousPage (p : Z) : Z := Z.max 1 (p - 1).

Definition nextPage (pages p : Z) : Z := Z.min pages (p + 1).

Section Mount.

(** [new Date(timestamp).getTime()]: the host's parsing of a timestamp.
    The timestamps [handleCheckout] stores are [toISOString()] texts, which
    parse; on a text that does not parse the source gets [NaN], which [Z]
    does not have. *)
Variable getTime : string → Z.

(** One step of the stable sort with the comparator
    [(a, b) => getTime(b) - getTime(a)]: [t] goes before the first
    transaction that is strictly older. *)
Fixpoint insertNewestFirst (t : Transaction.t) (l : list Transaction.t)
    : list Transaction.t :=
  match l with
  | [] => [t]
  | u :: rest =>
      if getTime (Transaction.timestamp u) <? getTime (Transaction.timestamp t)
      then t :: u :: rest
      else u :: insertNewestFirst t rest
  end.

(** [storeTransactions.sort(...)].  When every timestamp parses, the
    built-in sort is stable and its result is the one of inserting the
    transactions one by one, in their stored order.  With a timestamp that
    does not parse the comparator yields [NaN] and the order the host leaves
    is its own; what the sort returns is a rearrangement of its argument in
    either case, and the statements about the history screen use no more
    than that. *)
Definition sortNewestFirst (l : list Transaction.t) : list Transaction.t :=
  fold_left (fun sorted t => insertNewestFirst t sorted) l [].

(** [transaction.storeId === user?.storeId] *)
Definition ofStore (storeId : option string) (t : Transaction.t) : bool :=
  match storeId with
  | Some id => String.eqb (Transaction.storeId t) id
  | None => false
  end.

(** A string used as a condition: the empty string is falsy. *)
Definition truthy (o : option string) : option string :=
  match o with
  | Some "" => None
  | _ => o
  end.

(** The mount effect; [transactionId] is
    [searchParams.get('transactionId')].  A stored text that does not parse
    to a transaction log is not modelled ([None]). *)
Definition mount (transactionId : option string) (user : option User.t)
    (w : World) : option State :=
  let highlighted := truthy transactionId in
  match getItem "transactions" w with
  | None | Some (SText "") => Some (mkState [] highlighted None 1)
  | Some (STransactions parsedTransactions) =>
      let storeTransactions :=
        sortNewestFirst
          (List.filter (ofStore (user_storeId user)) parsedTransactions) in
      Some (mkState storeTransactions highlighted
              (highlighted ≫= fun id =>
                 find (fun t => String.eqb (Transaction.id t) id)
                      storeTransactions)
              1)
  | Some _ => None
  end.

End Mount.

End TransactionHistory.

(** ** App.tsx: the route table *)
Module App.






End App.

(** ** POSInterface.tsx on a menu loaded from localStorage

    The mount effect runs [setMenuItems(JSON.parse(savedMenuItems))] on
    whatever is stored under ['menuItems'].  The entries the menu editor
    writes there (MenuManagement.tsx, whose own [interface MenuItem] has
    no [stock]) carry no [stock] field, and reading it gives [undefined].
    A [LoadedItem.t] is a menu entry as the handlers then see it. *)

(** What reading a numeric field of a parsed object gives: a number,
    [undefined] when the field is missing, and [NaN] once [undefined] has
    gone through arithmetic. *)
Inductive JsNumber :=
| Num (n : Z)
| NaN
| Undefined.

Module LoadedItem.
Record t := mk {
  id : string;
  name : string;
  description : string;
  cashPrice : Z;
  qrisPrice : Z;
  categoryId : string;
  categoryName : string;
  image : option string;
  stock : JsNumber
}.

(** [{ ...item, stock: s }] *)
Definition with_stock (s : JsNumber) (m : t) : t :=
  mk (id m) (name m) (description m) (cashPrice m) (qrisPrice m)
     (categoryId m) (categoryName m) (image m) s.


(** An entry that carries a stock. *)
Definition ofMenuItem (m : MenuItem.t) : t :=
  mk (MenuItem.id m) (MenuItem.name m) (MenuItem.description m)
     (MenuItem.cashPrice m) (MenuItem.qrisPrice m) (MenuItem.categoryId m)
     (MenuItem.categoryName m) (MenuItem.image m) (Num (MenuItem.stock m)).

End LoadedItem.

(** A cart line of such an entry. *)
Module LoadedLine.
Record t := mk {
  item : LoadedItem.t;
  quantity : Z
}.

Definition id (c : t) : string := LoadedItem.id (item c).

(** [{ ...cartItem, quantity: q }] *)
Definition with_quantity (q : Z) (c : t) : t := mk (item c) q.

Definition ofCartItem (c : CartItem.t) : t :=
  mk (LoadedItem.ofMenuItem (CartItem.item c)) (CartItem.quantity c).
End LoadedLine.

Module LoadedMenu.

Local Open Scope Z_scope.

(** [a <= b], [a >= b] and [a > b]: [undefined] converts to [NaN], and a
    comparison with [NaN] is false. *)
Definition lessOrEqual (a b : JsNumber) : bool :=
  match a, b with
  | Num x, Num y => x <=? y
  | _, _ => false
  end.

Definition greaterOrEqual (a b : JsNumber) : bool :=
  match a, b with
  | Num x, Num y => x >=? y
  | _, _ => false
  end.

Definition greater (a b : JsNumber) : bool :=
  match a, b with
  | Num x, Num y => x >? y
  | _, _ => false
  end.

(** [a - b]: [NaN] as soon as one side is no number. *)
Definition minus (a b : JsNumber) : JsNumber :=
  match a, b with
  | Num x, Num y => Num (x - y)
  | _, _ => NaN
  end.

(** [`${n}`] *)
Definition interpolateNumber (n : JsNumber) : string :=
  match n with
  | Num n => pretty n
  | NaN => "NaN"
  | Undefined => "undefined"
  end.

(** The two cells the cart handlers read or write. *)
Record State := mkState {
  menuItems : list LoadedItem.t;
  cart : list LoadedLine.t
}.

(** [setCart(prevCart => f(prevCart))] *)
Definition setCart (f : list LoadedLine.t → list LoadedLine.t) (s : State)
    : State :=
  mkState (menuItems s) (f (cart s)).

(** [addToCart(item)] *)
Definition addToCart (item : LoadedItem.t) (sw : State * World)
    : State * World :=
  let (s, w) := sw in
  if lessOrEqual (LoadedItem.stock item) (Num 0) then
    (s, toast (Toast.mk "Out of stock"
                 (LoadedItem.name item +:+ " is out of stock.")
                 destructive) w)
  else
    match find (fun cartItem => String.eqb (LoadedLine.id cartItem)
                                           (LoadedItem.id item)) (cart s) with
    | Some existingItem =>
        if greaterOrEqual (Num (LoadedLine.quantity existingItem))
                          (LoadedItem.stock item) then
          (s, toast (Toast.mk "Stock limit reached"
                       ("Only " +:+ interpolateNumber (LoadedItem.stock item)
                        +:+ " " +:+ LoadedItem.name item
                        +:+ " available in stock.")
                       destructive) w)
        else
          (setCart
             (map (fun cartItem =>
                     if String.eqb (LoadedLine.id cartItem) (LoadedItem.id item)
                     then LoadedLine.with_quantity
                            (LoadedLine.quantity cartItem + 1) cartItem
                     else cartItem)) s, w)
    | None =>
        (setCart (fun prevCart => prevCart ++ [LoadedLine.mk item 1]) s, w)
    end.

(** [removeFromCart(itemId)] *)
Definition removeFromCart (itemId : string) (s : State) : State :=
  setCart (filter (fun item => negb (String.eqb (LoadedLine.id item) itemId)))
          s.

(** [updateCartItemQuantity(itemId, newQuantity)] *)
Definition updateCartItemQuantity (itemId : string) (newQuantity : Z)
    (sw : State * World) : State * World :=
  let (s, w) := sw in
  if newQuantity <=? 0 then (removeFromCart itemId s, w)
  else
    let update :=
      setCart (map (fun item =>
                      if String.eqb (LoadedLine.id item) itemId
                      then LoadedLine.with_quantity newQuantity item
                      else item)) s in
    match find (fun item => String.eqb (LoadedItem.id item) itemId)
               (menuItems s) with
    | Some item =>
        if greater (Num newQuantity) (LoadedItem.stock item) then
          (s, toast (Toast.mk "Stock limit reached"
                       ("Only " +:+ interpolateNumber (LoadedItem.stock item)
                        +:+ " " +:+ LoadedItem.name item
                        +:+ " available in stock.")
                       destructive) w)
        else (update, w)
    | None => (update, w)
    end.

(** The stock update of [handleCheckout]: each menu entry loses the
    quantity of the first cart line with its id. *)
Definition updatedMenuItems (s : State) : list LoadedItem.t :=
  map (fun item =>
         match find (fun cartItem => String.eqb (LoadedLine.id cartItem)
                                                (LoadedItem.id item))
                    (cart s) with
         | Some cartItem =>
             LoadedItem.with_stock
               (minus (LoadedItem.stock item)
                      (Num (LoadedLine.quantity cartItem))) item
         | None => item
         end)
      (menuItems s).

(** The calls a cashier can make on the cart. *)
Inductive CartCall :=
| AddToCart (item : LoadedItem.t)
| UpdateQuantity (itemId : string) (newQuantity : Z).

Definition call (c : CartCall) (sw : State * World) : State * World :=
  match c with
  | AddToCart item => addToCart item sw
  | UpdateQuantity itemId newQuantity =>
      updateCartItemQuantity itemId newQuantity sw
  end.

(** A sequence of calls, first call first. *)
Definition calls (cs : list CartCall) (sw : State * World) : State * World :=
  fold_left (fun acc c => call c acc) cs sw.

(** The menu and the cart of a cashier screen whose entries all carry a
    stock, and a call made with such an entry. *)
Definition ofState (s : POSInterface.State) : State :=
  mkState (map LoadedItem.ofMenuItem (POSInterface.menuItems s))
          (map LoadedLine.ofCartItem (POSInterface.cart s)).



End LoadedMenu.

(** ** Sample data

    The mock catalogue and stock list of the source, and a few states built
    from them, used to run the handlers on concrete inputs. *)
Module Sample.

Local Open Scope Z_scope.

Definition icedCoffee : MenuItem.t :=
  MenuItem.mk "1" "Iced Coffee" "Cold brewed coffee with ice"
              20000 22000 "1" "Drinks" None 10.

Definition hotCoffee : MenuItem.t :=
  MenuItem.mk "2" "Hot Coffee" "Freshly brewed hot coffee"
              18000 20000 "1" "Drinks" None 15.

Definition sandwich : MenuItem.t :=
  MenuItem.mk "3" "Sandwich" "Chicken sandwich with veggies"
              25000 27500 "2" "Food" None 8.

Definition menu : list MenuItem.t := [icedCoffee; hotCoffee; sandwich].

Definition cashier : User.t := User.mk "3" (Some "1") (Some "1").

Definition world (status : NetworkStatus) (queue : list Operation) : World :=
  mkWorld ∅ [] None status queue.

(** Two queued operations, as earlier offline checkouts leave them. *)
Definition op1 : Operation :=
  <["timestamp" := JString "2024-05-01T08:00:00.000Z"]>
    (operation "UPDATE_STOCK" (JStockUpdate [("1", 2)])).

Definition op2 : Operation :=
  <["timestamp" := JString "2024-05-01T08:05:00.000Z"]>
    (operation "UPDATE_STOCK" (JStockUpdate [("2", 1)])).

Definition queue : list Operation := [op1; op2].

(** A cashier screen with three iced coffees in the cart. *)
Definition pos : POSInterface.State :=
  POSInterface.mkState menu [CartItem.mk icedCoffee 3] cash false.

Definition posClock : POSInterface.Clock :=
  POSInterface.mkClock 1714550400000 "2024-05-01T08:00:00.000Z"
                       "2024-05-01T08:00:00.001Z" "2024-05-01T08:00:00.002Z".

(** A plain decimal rendering in place of the locale's. *)
Definition plainLocale : Z → string := pretty.

(** A stock screen in the middle of a selling day: selling has started and
    three iced coffees are left of ten. *)
Definition stock : StockControl.State :=
  StockControl.mkState
    [StockItem.mk "1" "Iced Coffee" 3 5 10;
     StockItem.mk "2" "Hot Coffee" 15 5 15]
    true false false.

Definition stockClock : StockControl.Clock :=
  StockControl.mkClock "2024-05-01T08:00:00.000Z" "2024-05-01T08:00:00.001Z".

(** The same day on the remote-backed screen, store "A" selected and already
    selling, and a remote database that holds a row for every item. *)
Definition remoteStock : StockControlRemote.State :=
  StockControlRemote.mkState
    [StoreStockItem.mk "1" "Iced Coffee" 3 5 10 "A"]
    [Store.mk "A" "Main Store" "1"]
    "A" ["A"] true.

Definition remoteClock : StockControlRemote.Clock :=
  StockControlRemote.mkClock (fun _ => "2024-05-01")
    "2024-05-01T08:00:00.000Z" "2024-05-01T08:00:00.001Z".


End Sample.

(** ** More sample data *)
Module Scenario.

Local Open Scope Z_scope.

(** A stored transaction log that does not parse. *)
Definition unreadableLog : World :=
  setItem "transactions" (SText "oops") (Sample.world online []).

(** A signed-in user with no store assigned. *)
Definition floater : User.t := User.mk "7" None None.

(** A remote database that answers every request with an error, and one
    that finds no row and accepts every write. *)
Definition failing : StockControlRemote.Remote :=
  fun _ => StockControlRemote.Error.


(** The stock screen of several stores: store "A" is selected, store "B"
    is selling; one item of each and one that belongs to no store. *)
Definition stores : StockControlStores.State :=
  StockControlStores.mkState
    [StoreStockItem.mk "1" "Iced Coffee" 3 5 10 "A";
     StoreStockItem.mk "2" "Hot Coffee" 4 5 15 "B";
     StoreStockItem.mk "3" "Sandwich" 0 3 8 ""]
    [Store.mk "A" "Main Store" "1"; Store.mk "B" "Second Store" "1"]
    "A" ["B"] true false.

Definition storesClock : StockControlStores.Clock :=
  StockControlStores.mkClock "2024-05-01T08:00:00.000Z"
                             "2024-05-01T08:00:00.001Z".

(** Twenty-three transactions of store "1", one a minute, and a stand-in
    for the host's date parsing that reads the digits a timestamp ends
    with. *)
Definition sale (n : nat) : Transaction.t :=
  Transaction.mk ("TR-" +:+ pretty n) [CartItem.mk Sample.icedCoffee 1]
                 20000 cash ("2024-05-01T08:" +:+ pretty n) "1" "3".

Definition sales : list Transaction.t := map sale (seq 10 23).

Fixpoint trailingDigits (read : Z) (text : string) : Z :=
  match text with
  | EmptyString => read
  | String c rest =>
      let code := nat_of_ascii c in
      if (48 <=? code)%nat && (code <=? 57)%nat
      then trailingDigits (10 * read + Z.of_nat (code - 48)) rest
      else trailingDigits 0 rest
  end.

Definition minuteOf (timestamp : string) : Z := trailingDigits 0 timestamp.

(** A sale of another store, and a stored log that holds one such sale
    before and one after the sales of store "1". *)
Definition elsewhere (n : nat) : Transaction.t :=
  Transaction.mk ("TR-" +:+ pretty n) [CartItem.mk Sample.hotCoffee 1]
                 18000 cash ("2024-05-01T07:" +:+ pretty n) "2" "9".

Definition history : World :=
  setItem "transactions"
    (STransactions (elsewhere 12 :: (sales ++ [elsewhere 40])))
    (Sample.world online []).

(** A page that has enqueued the end of selling behind the two waiting
    operations and has committed; and a page over the same localStorage
    that has nothing in memory. *)
Definition endSelling : Operation :=
  operation "END_SELLING"
    (JEndSelling (Some "1") (Some "1") "2024-05-01T08:10:00.000Z").

Definition persisted : World :=
  PwaContext.commit
    (PwaContext.addPendingOperation "2024-05-01T08:10:00.000Z" endSelling
       (Sample.world online Sample.queue)).

Definition blankPage : World :=
  mkWorld (localStorage persisted) [] None offline [].




End Scenario.

(** ** Statement helpers *)

(** The outcome of replaying one queued entry against a remote system, as
    the sync design speaks of it: [true] when the remote accepts the entry.
    The reconciler of the source takes no such argument. *)
Definition RemoteOutcome := Operation → bool.

(** The remote succeeds on the first [k-1] entries of [q] and fails on
    entry [k] (entries counted from 1). *)
Definition fails_first_at (remote : RemoteOutcome) (q : list Operation)
    (k : nat) : Prop :=
  (1 ≤ k ≤ length q)%nat
  ∧ (∀ i e, (i < k - 1)%nat → q !! i = Some e → remote e = true)
  ∧ (∃ e, q !! (k - 1)%nat = Some e ∧ remote e = false).

(** The notification [processPendingOperations] raises for a queue of [n]
    entries. *)
Definition syncComplete (n : nat) : Toast.t :=
  Toast.mk "Sync complete"
           ("Successfully synced " +:+ pretty n
            +:+ " operations with the server.")
           default_variant.

(** The quantity a cart holds of a menu item: that of the first line with
    the item's id (the line [Array.prototype.find] returns), zero when there
    is none. *)
Definition cartQuantity (cart : list CartItem.t) (id : string) : Z :=
  match find (fun cartItem => String.eqb (CartItem.id cartItem) id) cart with
  | Some cartItem => CartItem.quantity cartItem
  | None => 0%Z
  end.

(** Every cart line is a line of a menu item, and asks for no more than the
    stock of the menu item with its id. *)
Definition within_stock (menu : list MenuItem.t) (cart : list CartItem.t)
    : Prop :=
  ∀ c, c ∈ cart →
    (∃ m, m ∈ menu ∧ MenuItem.id m = CartItem.id c)
    ∧ (∀ m, m ∈ menu → MenuItem.id m = CartItem.id c →
            (CartItem.quantity c ≤ MenuItem.stock m)%Z).


(** The screen calls [addToCart] with an item of the menu it renders. *)
Definition from_menu (menu : list MenuItem.t) (c : POSInterface.CartCall)
    : Prop :=
  match c with
  | POSInterface.AddToCart item => item ∈ menu
  | POSInterface.UpdateQuantity _ _ => True
  end.


(** What holds of the cashier screen after any sequence of cart calls: the
    menu is the one the screen started with, every line is within the stock
    of its menu item, and no two lines have the same id. *)
Definition cart_invariant (menu : list MenuItem.t) (s : POSInterface.State)
    : Prop :=
  POSInterface.menuItems s = menu
  ∧ within_stock menu (POSInterface.cart s)
  ∧ NoDup (map CartItem.id (POSInterface.cart s)).


(** Enqueueing several operations one after the other, each with the clock
    reading of its own [addPendingOperation] call. *)
Definition enqueueAll (entries : list (string * Operation)) (w : World)
    : World :=
  fold_left (fun acc entry =>
               PwaContext.addPendingOperation (fst entry) (snd entry) acc)
            entries w.

(** Whether a text can be the JSON text of an array: its first character
    after the white space JSON allows is the opening bracket. *)
Fixpoint opensArray (text : string) : bool :=
  match text with
  | EmptyString => false
  | String c rest =>
      if Ascii.eqb c " "%char || Ascii.eqb c "009"%char
         || Ascii.eqb c "010"%char || Ascii.eqb c "013"%char
      then opensArray rest
      else Ascii.eqb c "["%char
  end.





(** ** The pending-operation queue and the reconciler *)
Section PwaContextFacts.
Import PwaContext.

Lemma pendingOperations_toast t w :
  pendingOperations (toast t w) = pendingOperations w.
Proof. reflexivity. Qed.

Lemma pendingOperations_setItem k v w :
  pendingOperations (setItem k v w) = pendingOperations w.
Proof. reflexivity. Qed.

Lemma pendingOperations_add now operation w :
  pendingOperations (addPendingOperation now operation w)
  = pendingOperations w ++ [<["timestamp" := JString now]> operation].
Proof. reflexivity. Qed.

Lemma processPendingOperations_online w :
  networkStatus w = online → pendingOperations w ≠ [] →
  processPendingOperations w
  = clearPendingOperations
      (toast (syncComplete (length (pendingOperations w))) w).
Proof.
  intros Hon Hne. unfold processPendingOperations. rewrite Hon. simpl.
  destruct (pendingOperations w) as [|e q] eqn:E; [congruence|].
  reflexivity.
Qed.

(** C9.  [addPendingOperation] appends exactly one entry at the tail of the
    queue: the given operation with its top-level [timestamp] field set to
    the enqueue time, whatever the caller had put there, every other field
    as given.  The entries queued before keep their positions, and nothing
    else of the state changes. *)
Theorem addPendingOperation_appends_one (now : string) (operation : Operation)
    (w : World) :
  let w' := addPendingOperation now operation w in
  ∃ entry : Operation,
    pendingOperations w' = pendingOperations w ++ [entry]
    ∧ length (pendingOperations w') = S (length (pendingOperations w))
    ∧ entry !! "timestamp" = Some (JString now)
    ∧ (∀ field, field ≠ "timestamp" → entry !! field = operation !! field)
    ∧ (∀ i e, pendingOperations w !! i = Some e →
              pendingOperations w' !! i = Some e)
    ∧ localStorage w' = localStorage w
    ∧ toasts w' = toasts w
    ∧ networkStatus w' = networkStatus w.
Proof.
  intros w'. exists (<["timestamp" := JString now]> operation).
  subst w'. rewrite pendingOperations_add.
  repeat split.
  - rewrite length_app. simpl. lia.
  - apply lookup_insert_eq.
  - intros field Hf. by apply lookup_insert_ne.
  - intros i e Hi. by apply lookup_app_l_Some.
Qed.

(** C10.  Called while offline, or on an empty queue, the reconciler
    returns at once: the state is the one it was called in, so no
    notification is raised and the queue is unchanged. *)
Theorem processPendingOperations_noop (w : World) :
  networkStatus w = offline ∨ pendingOperations w = [] →
  processPendingOperations w = w
  ∧ toasts (processPendingOperations w) = toasts w
  ∧ pendingOperations (processPendingOperations w) = pendingOperations w.
Proof.
  intros H.
  assert (E : processPendingOperations w = w).
  { unfold processPendingOperations.
    destruct H as [H|H]; rewrite H; [reflexivity|].
    by rewrite orb_true_r. }
  by rewrite E.
Qed.

Lemma processPendingOperations_noop_witness :
  (networkStatus (Sample.world offline Sample.queue) = offline
   ∨ pendingOperations (Sample.world offline Sample.queue) = [])
  ∧ processPendingOperations (Sample.world offline Sample.queue)
    = Sample.world offline Sample.queue.
Proof.
  split; [left; reflexivity|].
  apply (processPendingOperations_noop (Sample.world offline Sample.queue)).
  left; reflexivity.
Defined.

(** C1, as stated, fails: with a remote that rejects the very first entry
    the design keeps the whole queue, whereas the reconciler empties it. *)
Lemma reconciler_keeps_failed_entries_counterexample :
  networkStatus (Sample.world online Sample.queue) = online
  ∧ fails_first_at (fun _ => false) Sample.queue 1
  ∧ pendingOperations
      (processPendingOperations (Sample.world online Sample.queue))
    ≠ drop (1 - 1) Sample.queue.
Proof.
  split; [reflexivity|]. split; [|discriminate].
  split; [simpl; lia|]. split.
  - intros i e Hi. simpl in Hi. lia.
  - exists Sample.op1. split; reflexivity.
Qed.

(** C1, amended.  The reconciler makes no remote call and has no per-entry
    step.  Run online on a non-empty queue of [N] entries it raises the one
    notification "Sync complete", reporting [N] operations, and then empties
    the queue in one step; localStorage, the network status and the earlier
    notifications are as before.  No entry is retained and no "Sync failed"
    notification is raised, whatever a remote would have answered. *)
Theorem processPendingOperations_clears_queue (w : World) :
  networkStatus w = online → pendingOperations w ≠ [] →
  let w' := processPendingOperations w in
  pendingOperations w' = []
  ∧ toasts w' = toasts w ++ [syncComplete (length (pendingOperations w))]
  ∧ localStorage w' = localStorage w
  ∧ networkStatus w' = online.
Proof.
  intros Hon Hne w'. subst w'.
  rewrite processPendingOperations_online by assumption.
  repeat split. exact Hon.
Qed.

Lemma processPendingOperations_clears_queue_witness :
  networkStatus (Sample.world online Sample.queue) = online
  ∧ pendingOperations (Sample.world online Sample.queue) ≠ []
  ∧ pendingOperations
      (processPendingOperations (Sample.world online Sample.queue)) = []
  ∧ toasts (processPendingOperations (Sample.world online Sample.queue))
    = [syncComplete 2].
Proof.
  split; [reflexivity|]. split; [discriminate|].
  pose proof (processPendingOperations_clears_queue
                (Sample.world online Sample.queue) eq_refl
                ltac:(discriminate)) as (H1 & H2 & _).
  split; [exact H1 | exact H2].
Defined.

Lemma reload_of_store (navigatorOnLine : bool) (page : World)
    (stored : list Operation) :
  getItem "pendingOperations" page = Some (SOperations stored) →
  reload navigatorOnLine page
  = Some (mkWorld (localStorage page) [] (location page)
                  (if navigatorOnLine then online else offline) stored).
Proof.
  intros Hstored. unfold reload. simpl.
  change (getItem "pendingOperations"
            (mkWorld (localStorage page) [] (location page)
                     (if navigatorOnLine then online else offline) []))
    with (getItem "pendingOperations" page).
  rewrite Hstored.
  unfold storePendingOperations, setPendingOperations, setItem. simpl.
  rewrite insert_insert_eq. f_equal. f_equal. by apply insert_id.
Qed.

Lemma drain_after_reload (wa wb : World) :
  networkStatus wb = networkStatus wa →
  pendingOperations wb = pendingOperations wa →
  localStorage wb = localStorage wa →
  toasts wb = [] →
  let drained1 := commit (processPendingOperations wa) in
  let drained2 := commit (processPendingOperations wb) in
  pendingOperations drained2 = pendingOperations drained1
  ∧ localStorage drained2 = localStorage drained1
  ∧ networkStatus drained2 = networkStatus drained1
  ∧ toasts drained2 = drop (length (toasts wa)) (toasts drained1).
Proof.
  intros Hn Hq Hl Ht. unfold processPendingOperations.
  rewrite Hn, Hq.
  destruct (is_offline (networkStatus wa)
            || (length (pendingOperations wa) =? 0)%nat); simpl.
  - rewrite Hq, Hl, Hn, Ht. repeat split. by rewrite drop_all.
  - rewrite Hl, Hn, Ht. repeat split. by rewrite drop_app_length.
Qed.

(** C6, as stated, fails.  A page whose stored queue holds one operation
    enqueues a second one: the queue in memory has both, the stored queue
    still has the first one only, so the enqueue has not persisted the full
    queue.  A reload at that point mounts with the stored queue: the new
    entry is lost, and draining after the reload reports one synced
    operation where draining without it reports two. *)
Lemma enqueue_persists_synchronously_counterexample :
  let page := commit (Sample.world online [Sample.op1]) in
  let enqueued := addPendingOperation "2024-05-01T08:05:00.000Z"
                    (operation "UPDATE_STOCK" (JStockUpdate [("2", 1%Z)]))
                    page in
  pendingOperations enqueued = [Sample.op1; Sample.op2]
  ∧ getItem "pendingOperations" enqueued = Some (SOperations [Sample.op1])
  ∧ getItem "pendingOperations" enqueued
    ≠ Some (SOperations (pendingOperations enqueued))
  ∧ ∃ reloaded,
      reload true enqueued = Some reloaded
      ∧ pendingOperations reloaded = [Sample.op1]
      ∧ pendingOperations reloaded ≠ pendingOperations enqueued
      ∧ toasts (processPendingOperations enqueued) = [syncComplete 2]
      ∧ toasts (processPendingOperations reloaded) = [syncComplete 1].
Proof.
  split; [reflexivity|]. split; [reflexivity|]. split; [discriminate|].
  eexists. split; [reflexivity|]. split; [reflexivity|].
  split; [discriminate|]. split; reflexivity.
Qed.

(** C6, amended.  An enqueue changes the queue in memory only: localStorage
    is as before, and a reload at that point is the reload of the page
    before the enqueue.  The whole queue, new entry included, is written
    under ["pendingOperations"] by the storing effect at the commit that
    follows.  From then on a reload, whatever the page had in memory, mounts
    the provider with exactly the stored queue, the earlier entries followed
    by the new one, and leaves localStorage as the commit left it; and when
    the reloaded page sees the same network status, draining it ends in the
    same queue, the same localStorage and the same notification as draining
    without the reload. *)
Theorem queue_survives_reload (now : string) (operation : Operation)
    (w page : World) (navigatorOnLine : bool) :
  let enqueued := addPendingOperation now operation w in
  let persisted := commit enqueued in
  localStorage page = localStorage persisted →
  localStorage enqueued = localStorage w
  ∧ reload navigatorOnLine enqueued = reload navigatorOnLine w
  ∧ getItem "pendingOperations" persisted
    = Some (SOperations (pendingOperations w
                         ++ [<["timestamp" := JString now]> operation]))
  ∧ ∃ reloaded,
      reload navigatorOnLine page = Some reloaded
      ∧ pendingOperations reloaded
        = pendingOperations w ++ [<["timestamp" := JString now]> operation]
      ∧ localStorage reloaded = localStorage persisted
      ∧ toasts reloaded = []
      ∧ (networkStatus reloaded = networkStatus persisted →
         let drained1 := commit (processPendingOperations persisted) in
         let drained2 := commit (processPendingOperations reloaded) in
         pendingOperations drained2 = pendingOperations drained1
         ∧ localStorage drained2 = localStorage drained1
         ∧ networkStatus drained2 = networkStatus drained1
         ∧ toasts drained2
           = drop (length (toasts persisted)) (toasts drained1)).
Proof.
  intros enqueued persisted Hstore.
  assert (Hput : getItem "pendingOperations" persisted
                 = Some (SOperations
                           (pendingOperations w
                            ++ [<["timestamp" := JString now]> operation]))).
  { subst persisted enqueued.
    unfold commit, storePendingOperations, getItem, setItem. simpl.
    by rewrite lookup_insert_eq. }
  split; [reflexivity|]. split; [reflexivity|]. split; [exact Hput|].
  assert (Hpage : getItem "pendingOperations" page
                  = Some (SOperations
                            (pendingOperations w
                             ++ [<["timestamp" := JString now]> operation])))
    by (unfold getItem in *; by rewrite Hstore).
  rewrite (reload_of_store navigatorOnLine page _ Hpage).
  eexists. split; [reflexivity|]. simpl.
  split; [reflexivity|]. split; [exact Hstore|]. split; [reflexivity|].
  intros Hst. by apply drain_after_reload.
Qed.

End PwaContextFacts.

(** ** Checkout *)
Section CheckoutFacts.
Import POSInterface.

Variable toLocaleString : Z → string.

Lemma find_Some_elem {A} (p : A → bool) (l : list A) (x : A) :
  find p l = Some x → x ∈ l ∧ p x = true.
Proof. intros H. apply find_some in H. by rewrite list_elem_of_In. Qed.

Lemma find_None_elem {A} (p : A → bool) (l : list A) :
  find p l = None → ∀ x, x ∈ l → p x = false.
Proof. intros H x Hx. apply (find_none p l H). by rewrite <- list_elem_of_In. Qed.

Lemma find_NoDup_key {A} (key : A → string) (l : list A) (x : A) (k : string) :
  NoDup (map key l) → x ∈ l → key x = k →
  find (fun y => String.eqb (key y) k) l = Some x.
Proof.
  induction l as [|y l IH]; simpl; intros Hnd Hx Hk.
  - by apply elem_of_nil in Hx.
  - apply NoDup_cons in Hnd as [Hy Hnd].
    apply elem_of_cons in Hx as [->|Hx].
    + by rewrite (proj2 (String.eqb_eq _ _) Hk).
    + destruct (String.eqb (key y) k) eqn:E; [|by apply IH].
      apply String.eqb_eq in E. exfalso. apply Hy.
      rewrite E, <- Hk. by apply list_elem_of_fmap_2.
Qed.

Lemma handleCheckout_ok user clock s w transactions :
  isHolidayMode s = false → cart s ≠ [] →
  savedTransactions w = Some transactions →
  handleCheckout toLocaleString user clock (s, w)
  = (setMenuItems (updatedMenuItems s) s,
     navigate ("/pos/history?transactionId="
               +:+ Transaction.id (newTransaction user clock s))
       (toast (Toast.mk "Transaction complete"
                 ("Total: Rp " +:+ toLocaleString (calculateTotal s))
                 default_variant)
          (let w2 := setItem "menuItems" (SMenuItems (updatedMenuItems s))
                       (setItem "transactions"
                          (STransactions
                             (transactions ++ [newTransaction user clock s]))
                          w) in
           if is_offline (networkStatus w2) then
             PwaContext.addPendingOperation (stockEnqueued clock)
               (operation "UPDATE_STOCK"
                  (JStockUpdate
                     (map (fun item => (CartItem.id item,
                                        CartItem.quantity item)) (cart s))))
               (PwaContext.addPendingOperation (createEnqueued clock)
                  (operation "CREATE_TRANSACTION"
                     (JTransaction (newTransaction user clock s))) w2)
           else w2))).
Proof.
  intros Hh Hc Hs. unfold handleCheckout. rewrite Hh.
  destruct (cart s) as [|c cs] eqn:E; [congruence|]. simpl length. simpl Nat.eqb.
  cbv iota. rewrite Hs. reflexivity.
Qed.

(** C5.  Checkout in holiday mode, or on an empty cart, only raises a
    destructive notification ("Cannot process transaction" in holiday mode,
    "Empty cart" otherwise): the screen state, with its cart and the stock
    of its menu items, is the one before the call, and so are localStorage,
    with the persisted transactions and menu items, and the queue. *)
Theorem handleCheckout_rejected (user : option User.t) (clock : Clock)
    (s : State) (w : World) :
  isHolidayMode s = true ∨ cart s = [] →
  let after := handleCheckout toLocaleString user clock (s, w) in
  fst after = s
  ∧ localStorage (snd after) = localStorage w
  ∧ pendingOperations (snd after) = pendingOperations w
  ∧ location (snd after) = location w
  ∧ ∃ t, toasts (snd after) = toasts w ++ [t]
         ∧ Toast.variant t = destructive
         ∧ Toast.title t = (if isHolidayMode s
                            then "Cannot process transaction"
                            else "Empty cart").
Proof.
  intros H after. subst after. unfold handleCheckout.
  destruct (isHolidayMode s) eqn:Hh.
  - repeat split. eexists. repeat split.
  - destruct H as [H|H]; [discriminate|]. rewrite H. simpl.
    repeat split. eexists. repeat split.
Qed.


Lemma cartQuantity_absent (cart : list CartItem.t) (id : string) :
  (∀ c, c ∈ cart → CartItem.id c ≠ id) →
  find (fun cartItem => String.eqb (CartItem.id cartItem) id) cart = None.
Proof.
  intros H.
  destruct (find _ cart) as [c|] eqn:E; [|reflexivity].
  apply find_Some_elem in E as [Hc Heq].
  apply String.eqb_eq in Heq. by destruct (H c Hc).
Qed.

Lemma updatedMenuItems_lookup (s : State) (i : nat) (m : MenuItem.t) :
  menuItems s !! i = Some m →
  updatedMenuItems s !! i
  = Some (MenuItem.with_stock
            (MenuItem.stock m - cartQuantity (cart s) (MenuItem.id m)) m).
Proof.
  intros Hm. unfold updatedMenuItems, cartQuantity.
  rewrite list_lookup_fmap, Hm. simpl.
  destruct (find _ (cart s)); [reflexivity|].
  destruct m; simpl. f_equal. unfold MenuItem.with_stock; simpl.
  f_equal. lia.
Qed.

(** The stored log is readable in a browser profile that holds nothing
    yet, and a write under any other key leaves it as it is. *)
Lemma savedTransactions_fresh (status : NetworkStatus) :
  savedTransactions (mkWorld ∅ [] None status []) = Some [].
Proof. reflexivity. Qed.

Lemma savedTransactions_setItem (key : string) (v : Stored) (w : World) :
  key ≠ "transactions" →
  savedTransactions (setItem key v w) = savedTransactions w.
Proof.
  intros Hkey. unfold savedTransactions, getItem, setItem. simpl.
  by rewrite lookup_insert_ne.
Qed.





(** C8.  A successful checkout made while offline appends exactly two
    entries to the queue, in this order: a ["CREATE_TRANSACTION"] operation
    carrying the new transaction, then an ["UPDATE_STOCK"] operation
    carrying the id and quantity of every cart line, each stamped with its
    enqueue time; the entries queued before stay in front.  Made while
    online, it leaves the queue as it was. *)
Theorem handleCheckout_enqueues_when_offline (user : option User.t)
    (clock : Clock) (s : State) (w : World)
    (transactions : list Transaction.t) :
  isHolidayMode s = false → cart s ≠ [] →
  savedTransactions w = Some transactions →
  let after := handleCheckout toLocaleString user clock (s, w) in
  (networkStatus w = offline →
   ∃ create update : Operation,
     pendingOperations (snd after) = pendingOperations w ++ [create; update]
     ∧ create !! "type" = Some (JString "CREATE_TRANSACTION")
     ∧ create !! "data" = Some (JTransaction (newTransaction user clock s))
     ∧ create !! "timestamp" = Some (JString (createEnqueued clock))
     ∧ update !! "type" = Some (JString "UPDATE_STOCK")
     ∧ update !! "data"
       = Some (JStockUpdate
                 (map (fun item => (CartItem.id item, CartItem.quantity item))
                      (cart s)))
     ∧ update !! "timestamp" = Some (JString (stockEnqueued clock)))
  ∧ (networkStatus w = online →
     pendingOperations (snd after) = pendingOperations w).
Proof.
  intros Hh Hc Hs after. subst after.
  rewrite (handleCheckout_ok _ _ _ _ _ Hh Hc Hs). simpl snd. split.
  - intros Hoff. simpl. rewrite Hoff. simpl.
    do 2 eexists. split; [by rewrite <- app_assoc|].
    repeat split.
  - intros Hon. simpl. rewrite Hon. reflexivity.
Qed.

End CheckoutFacts.

Lemma handleCheckout_rejected_witness :
  (POSInterface.isHolidayMode
     (POSInterface.mkState Sample.menu [] cash false) = true
   ∨ POSInterface.cart (POSInterface.mkState Sample.menu [] cash false) = [])
  ∧ fst (POSInterface.handleCheckout Sample.plainLocale (Some Sample.cashier)
           Sample.posClock
           (POSInterface.mkState Sample.menu [] cash false,
            Sample.world offline Sample.queue))
    = POSInterface.mkState Sample.menu [] cash false.
Proof.
  split; [right; reflexivity|].
  apply (handleCheckout_rejected Sample.plainLocale (Some Sample.cashier)
           Sample.posClock (POSInterface.mkState Sample.menu [] cash false)
           (Sample.world offline Sample.queue)).
  right; reflexivity.
Defined.


Lemma handleCheckout_enqueues_when_offline_witness :
  POSInterface.isHolidayMode Sample.pos = false
  ∧ POSInterface.cart Sample.pos ≠ []
  ∧ POSInterface.savedTransactions (Sample.world offline Sample.queue)
    = Some []
  ∧ ∃ create update : Operation,
      pendingOperations
        (snd (POSInterface.handleCheckout Sample.plainLocale
                (Some Sample.cashier) Sample.posClock
                (Sample.pos, Sample.world offline Sample.queue)))
      = Sample.queue ++ [create; update]
      ∧ create !! "type" = Some (JString "CREATE_TRANSACTION")
      ∧ update !! "type" = Some (JString "UPDATE_STOCK").
Proof.
  split; [reflexivity|]. split; [discriminate|]. split; [reflexivity|].
  destruct (handleCheckout_enqueues_when_offline Sample.plainLocale
              (Some Sample.cashier) Sample.posClock Sample.pos
              (Sample.world offline Sample.queue) []
              eq_refl ltac:(discriminate) eq_refl) as [Hoff _].
  destruct (Hoff eq_refl) as (create & update & Hq & Hc & _ & _ & Hu & _).
  exists create, update. split; [exact Hq|]. split; [exact Hc | exact Hu].
Defined.

(** The scenario of the design notes: three iced coffees at 20000 in cash
    leave seven in stock and a total of 60000; the same sale made offline
    queues the two operations behind those already waiting. *)
Example checkout_scenario :
  let after := POSInterface.handleCheckout Sample.plainLocale
                 (Some Sample.cashier) Sample.posClock
                 (Sample.pos, Sample.world offline Sample.queue) in
  MenuItem.stock <$> POSInterface.menuItems (fst after) = [7; 15; 8]%Z
  ∧ (Transaction.total <$> (POSInterface.savedTransactions (snd after)
                              ≫= last)) = Some 60000%Z
  ∧ length (pendingOperations (snd after)) = 4%nat
  ∧ ((.!! "type") <$> pendingOperations (snd after))
    = [Some (JString "UPDATE_STOCK"); Some (JString "UPDATE_STOCK");
       Some (JString "CREATE_TRANSACTION"); Some (JString "UPDATE_STOCK")].
Proof. vm_compute. repeat split. Qed.

(** ** The cart *)


Section CartFacts.
Import POSInterface.

Variable menu : list MenuItem.t.
Hypothesis menu_ids : NoDup (map MenuItem.id menu).

Lemma NoDup_key_inj {A} (key : A → string) (l : list A) (x y : A) :
  NoDup (map key l) → x ∈ l → y ∈ l → key x = key y → x = y.
Proof.
  intros Hnd Hx Hy Hk.
  pose proof (find_NoDup_key key l x (key y) Hnd Hx Hk) as E1.
  pose proof (find_NoDup_key key l y (key y) Hnd Hy eq_refl) as E2.
  congruence.
Qed.

Lemma cart_ids_map (f : CartItem.t → CartItem.t) (l : list CartItem.t) :
  (∀ c, CartItem.id (f c) = CartItem.id c) →
  map CartItem.id (map f l) = map CartItem.id l.
Proof.
  intros Hf. induction l as [|c l IH]; simpl; [reflexivity|].
  by rewrite Hf, IH.
Qed.

Lemma elem_of_map_inv {A B} (f : A → B) (l : list A) (y : B) :
  y ∈ map f l → ∃ x, y = f x ∧ x ∈ l.
Proof. intros H. by apply (list_elem_of_fmap f l y). Qed.

Lemma addToCart_invariant (item : MenuItem.t) (s : State) (w : World) :
  item ∈ menu → cart_invariant menu s →
  cart_invariant menu (fst (addToCart item (s, w))).
Proof.
  intros Hitem (Hmenu & Hstock & Hnd). unfold addToCart.
  destruct (Z.leb_spec (MenuItem.stock item) 0) as [Hle|Hpos];
    [exact (conj Hmenu (conj Hstock Hnd))|].
  destruct (find _ (cart s)) as [existing|] eqn:Ef.
  - apply find_Some_elem in Ef as [Hex Hid]. apply String.eqb_eq in Hid.
    destruct (Z.geb_spec (CartItem.quantity existing) (MenuItem.stock item))
      as [Hge|Hlt]; [exact (conj Hmenu (conj Hstock Hnd))|].
    unfold cart_invariant, setCart; simpl. split; [exact Hmenu|]. split.
    + intros c' Hc'. apply elem_of_map_inv in Hc' as (c & -> & Hc).
      destruct (Hstock c Hc) as [Hsome Hall].
      destruct (String.eqb (CartItem.id c) (MenuItem.id item)) eqn:E;
        [|by split].
      apply String.eqb_eq in E.
      assert (c = existing) as ->
        by (apply (NoDup_key_inj CartItem.id (cart s)); congruence).
      split; [exact Hsome|]. intros m Hm Hmid. simpl in *.
      assert (m = item) as ->
        by (apply (NoDup_key_inj MenuItem.id menu); try done;
            unfold CartItem.id in *; simpl in *; congruence).
      lia.
    + rewrite cart_ids_map; [exact Hnd|].
      intros c. by destruct (String.eqb _ _).
  - unfold cart_invariant, setCart; simpl. split; [exact Hmenu|]. split.
    + intros c Hc. apply elem_of_app in Hc as [Hc|Hc]; [by apply Hstock|].
      apply list_elem_of_singleton in Hc as ->. split.
      * by exists item.
      * intros m Hm Hmid. simpl.
        assert (m = item) as ->
          by (by apply (NoDup_key_inj MenuItem.id menu)).
        lia.
    + rewrite map_app. apply NoDup_app. split; [exact Hnd|]. split.
      * intros x Hx Hx'. apply list_elem_of_singleton in Hx'. simpl in Hx'.
        apply elem_of_map_inv in Hx as (c & -> & Hc).
        pose proof (find_None_elem _ _ Ef c Hc) as E. simpl in E.
        apply String.eqb_neq in E. by apply E.
      * apply NoDup_singleton.
Qed.

Lemma updateCartItemQuantity_invariant (itemId : string) (newQuantity : Z)
    (s : State) (w : World) :
  cart_invariant menu s →
  cart_invariant menu
    (fst (updateCartItemQuantity itemId newQuantity (s, w))).
Proof.
  intros (Hmenu & Hstock & Hnd). unfold updateCartItemQuantity.
  destruct (Z.leb_spec newQuantity 0) as [Hle|Hpos].
  { unfold cart_invariant, removeFromCart, setCart; simpl. split; [exact Hmenu|]. split.
    - intros c Hc. apply list_elem_of_filter in Hc as [_ Hc]. by apply Hstock.
    - eapply sublist_NoDup; [exact Hnd|].
      apply (fmap_sublist CartItem.id), sublist_filter. }
  assert (Hids : map CartItem.id
                   (map (fun item => if String.eqb (CartItem.id item) itemId
                                     then CartItem.with_quantity newQuantity item
                                     else item) (cart s))
                 = map CartItem.id (cart s)).
  { apply cart_ids_map. intros c. by destruct (String.eqb _ _). }
  destruct (find _ (menuItems s)) as [item|] eqn:Ef.
  - apply find_Some_elem in Ef as [Hin Hid]. apply String.eqb_eq in Hid.
    rewrite Hmenu in Hin.
    destruct (Z.gtb_spec newQuantity (MenuItem.stock item)) as [Hgt|Hok];
      [exact (conj Hmenu (conj Hstock Hnd))|].
    unfold cart_invariant, setCart; simpl. split; [exact Hmenu|]. split; [|by rewrite Hids].
    intros c' Hc'. apply elem_of_map_inv in Hc' as (c & -> & Hc).
    destruct (Hstock c Hc) as [Hsome Hall].
    destruct (String.eqb (CartItem.id c) itemId) eqn:E; [|by split].
    apply String.eqb_eq in E. split; [exact Hsome|].
    intros m Hm Hmid. simpl in *.
    assert (m = item) as ->
      by (apply (NoDup_key_inj MenuItem.id menu); try done;
          unfold CartItem.id in *; simpl in *; congruence).
    lia.
  - unfold cart_invariant, setCart; simpl. split; [exact Hmenu|]. split; [|by rewrite Hids].
    intros c' Hc'. apply elem_of_map_inv in Hc' as (c & -> & Hc).
    destruct (Hstock c Hc) as [Hsome Hall].
    destruct (String.eqb (CartItem.id c) itemId) eqn:E; [|by split].
    apply String.eqb_eq in E. exfalso.
    destruct Hsome as (m & Hm & Hmid). rewrite <- Hmenu in Hm.
    pose proof (find_None_elem _ _ Ef m Hm) as E'. simpl in E'.
    apply String.eqb_neq in E'. congruence.
Qed.

Lemma call_invariant (c : CartCall) (s : State) (w : World) :
  from_menu menu c → cart_invariant menu s →
  cart_invariant menu (fst (call c (s, w))).
Proof.
  destruct c as [item|itemId newQuantity]; simpl; intros Hc Hinv.
  - by apply addToCart_invariant.
  - by apply updateCartItemQuantity_invariant.
Qed.

Lemma calls_invariant (cs : list CartCall) (s : State) (w : World) :
  Forall (from_menu menu) cs → cart_invariant menu s →
  cart_invariant menu (fst (calls cs (s, w))).
Proof.
  revert s w. induction cs as [|c cs IH]; intros s w Hcs Hinv; [exact Hinv|].
  apply Forall_cons in Hcs as [Hc Hcs]. unfold calls. simpl.
  pose proof (call_invariant c s w Hc Hinv) as Hstep.
  destruct (call c (s, w)) as [s' w']. by apply IH.
Qed.



End CartFacts.

(** Ten iced coffees in the cart are the whole stock: one more is refused
    and the cart keeps its single line of ten. *)
Example cart_scenario :
  let after := POSInterface.calls
                 [POSInterface.AddToCart Sample.icedCoffee;
                  POSInterface.UpdateQuantity "1" 10;
                  POSInterface.AddToCart Sample.icedCoffee;
                  POSInterface.UpdateQuantity "1" 11]
                 (POSInterface.mkState Sample.menu [] cash false,
                  Sample.world online []) in
  POSInterface.cart (fst after) = [CartItem.mk Sample.icedCoffee 10]
  ∧ Toast.title <$> toasts (snd after)
    = ["Stock limit reached"; "Stock limit reached"].
Proof. vm_compute. split; reflexivity. Qed.

(** ** The cart over a loaded menu

    On entries that carry a stock the handlers of [LoadedMenu] do what
    those of [POSInterface] do. *)
Section LoadedMenuFacts.

Lemma find_ofCartItem (id : string) (l : list CartItem.t) :
  find (fun c => String.eqb (LoadedLine.id c) id)
       (map LoadedLine.ofCartItem l)
  = LoadedLine.ofCartItem
      <$> find (fun c => String.eqb (CartItem.id c) id) l.
Proof.
  induction l as [|c l IH]; simpl; [reflexivity|].
  change (LoadedLine.id (LoadedLine.ofCartItem c)) with (CartItem.id c).
  by destruct (String.eqb (CartItem.id c) id).
Qed.







Lemma updatedMenuItems_ofState (s : POSInterface.State) :
  LoadedMenu.updatedMenuItems (LoadedMenu.ofState s)
  = map LoadedItem.ofMenuItem (POSInterface.updatedMenuItems s).
Proof.
  unfold LoadedMenu.updatedMenuItems, POSInterface.updatedMenuItems,
    LoadedMenu.ofState. simpl.
  rewrite !map_map. apply map_ext. intros m.
  change (LoadedItem.id (LoadedItem.ofMenuItem m)) with (MenuItem.id m).
  rewrite find_ofCartItem.
  by destruct (find _ (POSInterface.cart s)).
Qed.









End LoadedMenuFacts.


(** ** Start and end of selling *)
Section StockControlFacts.
Import StockControl.



Lemma stockItemsKey_sellingStartedKey (a b : option string) :
  stockItemsKey a ≠ sellingStartedKey b.
Proof. unfold stockItemsKey, sellingStartedKey. simpl. intros H. discriminate. Qed.

Lemma localStorage_handleStartSelling user clock s w :
  localStorage (snd (handleStartSelling user clock (s, w)))
  = <[sellingStartedKey (user_storeId user) := SText "true"]>
      (<[stockItemsKey (user_storeId user)
         := SStockItems
              (map (fun item =>
                      StockItem.with_currentStock
                        (StockItem.initialStock item) item) (stockItems s))]>
         (localStorage w)).
Proof.
  unfold handleStartSelling. simpl.
  by destruct (is_offline (networkStatus w)).
Qed.

Lemma localStorage_handleEndSelling user clock s w :
  localStorage (snd (handleEndSelling user clock (s, w)))
  = <[sellingStartedKey (user_storeId user) := SText "false"]>
      (<[stockItemsKey (user_storeId user)
         := SStockItems
              (map (fun item => StockItem.with_currentStock 0 item)
                   (stockItems s))]>
         (localStorage w)).
Proof.
  unfold handleEndSelling. simpl.
  by destruct (is_offline (networkStatus w)).
Qed.


End StockControlFacts.

(** ** Starting to sell while already selling *)
Section RemoteStartFacts.
Import StockControlRemote.

Variable remote : Remote.




End RemoteStartFacts.

Section StartWhileSellingFacts.




End StartWhileSellingFacts.

(** Three operations are stored; a page over that localStorage with
    nothing in memory reloads to exactly these three, and draining them
    online empties the stored queue. *)
Lemma queue_survives_reload_witness :
  localStorage Scenario.blankPage = localStorage Scenario.persisted
  ∧ ∃ reloaded,
      PwaContext.reload true Scenario.blankPage = Some reloaded
      ∧ pendingOperations reloaded
        = Sample.queue
          ++ [<["timestamp" := JString "2024-05-01T08:10:00.000Z"]>
                Scenario.endSelling]
      ∧ pendingOperations Scenario.blankPage = []
      ∧ getItem "pendingOperations"
          (PwaContext.commit (PwaContext.processPendingOperations reloaded))
        = Some (SOperations []).
Proof.
  split; [reflexivity|].
  destruct (queue_survives_reload "2024-05-01T08:10:00.000Z"
              Scenario.endSelling (Sample.world online Sample.queue)
              Scenario.blankPage true eq_refl)
    as (_ & _ & _ & reloaded & Hreload & Hqueue & _).
  exists reloaded. split; [exact Hreload|]. split; [exact Hqueue|].
  split; [reflexivity|].
  injection Hreload as <-. reflexivity.
Defined.

(** ** More on the queue: several enqueues, reconnecting, reloading *)
Section QueueFacts.
Import PwaContext.

(** X1.  Operations enqueued one after the other are appended in the order
    of the calls, each stamped with its own enqueue time; none is merged
    with or moved before another, and localStorage and the notifications
    are not touched by the calls themselves. *)
Theorem enqueueAll_keeps_order (entries : list (string * Operation))
    (w : World) :
  pendingOperations (enqueueAll entries w)
  = pendingOperations w
    ++ map (fun entry => <["timestamp" := JString (fst entry)]> (snd entry))
           entries
  ∧ localStorage (enqueueAll entries w) = localStorage w
  ∧ toasts (enqueueAll entries w) = toasts w
  ∧ networkStatus (enqueueAll entries w) = networkStatus w.
Proof.
  revert w. induction entries as [|[now op] entries IH]; intros w.
  - simpl. by rewrite app_nil_r.
  - unfold enqueueAll in *. simpl.
    destruct (IH (addPendingOperation now op w)) as (Hq & Hl & Ht & Hn).
    rewrite Hq, Hl, Ht, Hn. simpl. by rewrite <- app_assoc.
Qed.

Lemma processPendingOperationsOf_current (w : World) :
  PwaProvider.processPendingOperationsOf (networkStatus w)
    (pendingOperations w) w
  = processPendingOperations w.
Proof. reflexivity. Qed.

(** X2.  The [online] listener flips the status to online and raises
    "You're back online", and that is all: the reconciler it calls is the
    one of the first render, whose queue is empty, so whatever is queued
    stays queued, localStorage is unchanged and no "Sync complete" is
    raised.  The [offline] listener likewise only flips the status and
    raises "You're offline". *)
Theorem connectivity_listeners_keep_queue (mounted : NetworkStatus)
    (w : World) :
  (pendingOperations (PwaProvider.handleOnline mounted w)
   = pendingOperations w
   ∧ localStorage (PwaProvider.handleOnline mounted w) = localStorage w
   ∧ networkStatus (PwaProvider.handleOnline mounted w) = online
   ∧ Toast.title <$> toasts (PwaProvider.handleOnline mounted w)
     = (Toast.title <$> toasts w) ++ ["You're back online"])
  ∧ (pendingOperations (PwaProvider.handleOffline w) = pendingOperations w
     ∧ localStorage (PwaProvider.handleOffline w) = localStorage w
     ∧ networkStatus (PwaProvider.handleOffline w) = offline
     ∧ Toast.title <$> toasts (PwaProvider.handleOffline w)
       = (Toast.title <$> toasts w) ++ ["You're offline"]).
Proof.
  unfold PwaProvider.handleOnline, PwaProvider.handleOffline,
    PwaProvider.processPendingOperationsOf.
  rewrite orb_true_r. simpl.
  rewrite !fmap_app. repeat split.
Qed.

(** X3.  A reload shows what localStorage holds, not what the page had in
    memory: with no stored queue the provider mounts with an empty queue
    and stores it; with a stored queue it mounts with exactly that queue
    and leaves localStorage as it was.  In both cases a second reload gives
    the same queue again. *)
Theorem reload_restores_stored_queue (navigatorOnLine again : bool)
    (w : World) :
  (getItem "pendingOperations" w = None →
   ∃ w1, reload navigatorOnLine w = Some w1
         ∧ pendingOperations w1 = []
         ∧ getItem "pendingOperations" w1 = Some (SOperations [])
         ∧ ∃ w2, reload again w1 = Some w2 ∧ pendingOperations w2 = [])
  ∧ (∀ stored, getItem "pendingOperations" w = Some (SOperations stored) →
     ∃ w1, reload navigatorOnLine w = Some w1
           ∧ pendingOperations w1 = stored
           ∧ localStorage w1 = localStorage w
           ∧ ∃ w2, reload again w1 = Some w2
                   ∧ pendingOperations w2 = stored).
Proof.
  unfold reload, getItem, storePendingOperations, setItem,
    setPendingOperations. simpl. split.
  - intros Hnone. rewrite Hnone. eexists. split; [reflexivity|]. simpl.
    rewrite !lookup_insert_eq. split; [reflexivity|]. split; [reflexivity|].
    eexists. split; reflexivity.
  - intros stored Hsome. rewrite Hsome. eexists. split; [reflexivity|]. simpl.
    rewrite !lookup_insert_eq. split; [reflexivity|]. split.
    + rewrite insert_insert_eq. by apply insert_id.
    + eexists. split; reflexivity.
Qed.

Lemma processPendingOperations_empties (w : World) :
  networkStatus w = online →
  pendingOperations (processPendingOperations w) = [].
Proof.
  intros Hon. unfold processPendingOperations. rewrite Hon. simpl.
  destruct (pendingOperations w) eqn:E; simpl; [exact E | reflexivity].
Qed.

(** X4.  What an online drain removed does not come back: after the
    commit that follows the drain the stored queue is empty, a reload
    mounts with an empty queue, and the reconciler of the render that
    follows finds nothing to do.  The reconciler of the render that
    drained, called a second time, still tests the queue of its own
    render: it raises "Sync complete" once more, and the queue stays
    empty. *)
Theorem drained_queue_stays_empty (w : World) (navigatorOnLine : bool) :
  networkStatus w = online →
  let drained := commit (processPendingOperations w) in
  getItem "pendingOperations" drained = Some (SOperations [])
  ∧ (∃ w', reload navigatorOnLine drained = Some w'
           ∧ pendingOperations w' = [])
  ∧ PwaProvider.processPendingOperationsOf
      (networkStatus drained) (pendingOperations drained) drained
    = drained
  ∧ (pendingOperations w ≠ [] →
     let again :=
       PwaProvider.processPendingOperationsOf
         (networkStatus w) (pendingOperations w)
         (processPendingOperations w) in
     pendingOperations again = []
     ∧ toasts again
       = toasts w ++ [syncComplete (length (pendingOperations w));
                      syncComplete (length (pendingOperations w))]).
Proof.
  intros Hon drained.
  pose proof (processPendingOperations_empties w Hon) as He.
  assert (Hq : pendingOperations drained = []) by exact He.
  assert (Hstored : getItem "pendingOperations" drained
                    = Some (SOperations [])).
  { subst drained. unfold commit, storePendingOperations, getItem, setItem.
    simpl. by rewrite He, lookup_insert_eq. }
  split; [exact Hstored|]. split.
  { rewrite (reload_of_store navigatorOnLine drained [] Hstored).
    eexists. split; reflexivity. }
  split.
  { unfold PwaProvider.processPendingOperationsOf. rewrite Hq. simpl.
    by rewrite orb_true_r. }
  intros Hne again. subst again.
  rewrite (processPendingOperations_online w Hon Hne).
  unfold PwaProvider.processPendingOperationsOf. rewrite Hon. simpl.
  destruct (pendingOperations w) as [|e q] eqn:E; [congruence|].
  simpl. split; [reflexivity|]. by rewrite <- app_assoc.
Qed.

End QueueFacts.

(** ** More on the cart and the checkout *)
Section CartAndCheckoutFacts.
Import POSInterface.

Local Open Scope Z_scope.

Lemma addToCart_shape (item : MenuItem.t) (s : State) (w : World) :
  NoDup (map CartItem.id (cart s)) →
  Forall (fun c => 1 ≤ CartItem.quantity c) (cart s) →
  NoDup (map CartItem.id (cart (fst (addToCart item (s, w)))))
  ∧ Forall (fun c => 1 ≤ CartItem.quantity c)
           (cart (fst (addToCart item (s, w)))).
Proof.
  intros Hnd Hq. unfold addToCart.
  destruct (MenuItem.stock item <=? 0); [by split|].
  destruct (find _ (cart s)) as [existing|] eqn:Ef.
  - destruct (CartItem.quantity existing >=? MenuItem.stock item);
      [by split|].
    unfold setCart; simpl. split.
    + rewrite cart_ids_map; [exact Hnd|].
      intros c. by destruct (String.eqb _ _).
    + apply Forall_forall. intros c' Hc'.
      apply elem_of_map_inv in Hc' as (c & -> & Hc).
      pose proof (proj1 (Forall_forall _ _) Hq c Hc) as Hqc. simpl in Hqc.
      destruct (String.eqb _ _); simpl; lia.
  - unfold setCart; simpl. split.
    + rewrite map_app. apply NoDup_app. split; [exact Hnd|]. split.
      * intros x Hx Hx'. apply list_elem_of_singleton in Hx'. simpl in Hx'.
        apply elem_of_map_inv in Hx as (c & -> & Hc).
        pose proof (find_None_elem _ _ Ef c Hc) as E. simpl in E.
        apply String.eqb_neq in E. by apply E.
      * apply NoDup_singleton.
    + apply Forall_app. split; [exact Hq|]. apply Forall_singleton. simpl. lia.
Qed.

Lemma updateCartItemQuantity_shape (itemId : string) (newQuantity : Z)
    (s : State) (w : World) :
  NoDup (map CartItem.id (cart s)) →
  Forall (fun c => 1 ≤ CartItem.quantity c) (cart s) →
  NoDup (map CartItem.id
           (cart (fst (updateCartItemQuantity itemId newQuantity (s, w)))))
  ∧ Forall (fun c => 1 ≤ CartItem.quantity c)
           (cart (fst (updateCartItemQuantity itemId newQuantity (s, w)))).
Proof.
  intros Hnd Hq. unfold updateCartItemQuantity.
  destruct (Z.leb_spec newQuantity 0) as [Hle|Hpos].
  { unfold removeFromCart, setCart; simpl. split.
    - eapply sublist_NoDup; [exact Hnd|].
      apply (fmap_sublist CartItem.id), sublist_filter.
    - apply Forall_forall. intros c Hc.
      apply list_elem_of_filter in Hc as [_ Hc].
      by apply (proj1 (Forall_forall _ _) Hq). }
  assert (Hupdate :
    NoDup (map CartItem.id
             (map (fun item => if String.eqb (CartItem.id item) itemId
                               then CartItem.with_quantity newQuantity item
                               else item) (cart s)))
    ∧ Forall (fun c => 1 ≤ CartItem.quantity c)
             (map (fun item => if String.eqb (CartItem.id item) itemId
                               then CartItem.with_quantity newQuantity item
                               else item) (cart s))).
  { split.
    - rewrite cart_ids_map; [exact Hnd|].
      intros c. by destruct (String.eqb _ _).
    - apply Forall_forall. intros c' Hc'.
      apply elem_of_map_inv in Hc' as (c & -> & Hc).
      pose proof (proj1 (Forall_forall _ _) Hq c Hc) as Hqc. simpl in Hqc.
      destruct (String.eqb _ _); simpl; lia. }
  destruct (find _ (menuItems s)) as [item|]; [|exact Hupdate].
  destruct (newQuantity >? MenuItem.stock item); [by split | exact Hupdate].
Qed.

Lemma calls_shape (cs : list CartCall) (s : State) (w : World) :
  NoDup (map CartItem.id (cart s)) →
  Forall (fun c => 1 ≤ CartItem.quantity c) (cart s) →
  NoDup (map CartItem.id (cart (fst (calls cs (s, w)))))
  ∧ Forall (fun c => 1 ≤ CartItem.quantity c) (cart (fst (calls cs (s, w)))).
Proof.
  revert s w. induction cs as [|c cs IH]; intros s w Hnd Hq; [by split|].
  unfold calls. simpl.
  assert (Hstep :
    NoDup (map CartItem.id (cart (fst (call c (s, w)))))
    ∧ Forall (fun c => 1 ≤ CartItem.quantity c)
             (cart (fst (call c (s, w))))).
  { destruct c; simpl;
      [by apply addToCart_shape | by apply updateCartItemQuantity_shape]. }
  destruct (call c (s, w)) as [s' w']. destruct Hstep. by apply IH.
Qed.

(** X6.  Whatever calls are made on an empty cart, with whatever items, no
    two cart lines ever share an id and every line has a quantity of at
    least one. *)
Theorem cart_lines_distinct_and_positive (cs : list CartCall)
    (menu : list MenuItem.t) (payment : PaymentMethod) (holiday : bool)
    (w : World) :
  let s := fst (calls cs (mkState menu [] payment holiday, w)) in
  NoDup (map CartItem.id (cart s))
  ∧ Forall (fun c => 1 ≤ CartItem.quantity c) (cart s).
Proof.
  apply calls_shape; simpl; [apply NoDup_nil_2 | apply Forall_nil_2].
Qed.

(** X7.  Setting a line's quantity to zero or less removes the line and
    raises no notification; adding the item again afterwards, when it is in
    stock, starts a fresh line of quantity one at the end of the cart,
    behind the lines of the other items, which keep their order. *)
Theorem remove_then_add_starts_fresh_line (item : MenuItem.t)
    (newQuantity : Z) (s : State) (w : World) :
  newQuantity ≤ 0 → 0 < MenuItem.stock item →
  let removed := updateCartItemQuantity (MenuItem.id item) newQuantity (s, w) in
  removed = (removeFromCart (MenuItem.id item) s, w)
  ∧ (∀ c, c ∈ cart (fst removed)
          ↔ c ∈ cart s ∧ CartItem.id c ≠ MenuItem.id item)
  ∧ cart (fst removed) `sublist_of` cart s
  ∧ fst (addToCart item removed)
    = setCart (fun _ => cart (fst removed) ++ [CartItem.mk item 1]) s
  ∧ snd (addToCart item removed) = w.
Proof.
  intros Hle Hpos removed.
  assert (Hr : removed = (removeFromCart (MenuItem.id item) s, w)).
  { subst removed. unfold updateCartItemQuantity.
    by destruct (Z.leb_spec newQuantity 0); [|lia]. }
  assert (Hin : ∀ c, c ∈ cart (removeFromCart (MenuItem.id item) s)
                     ↔ c ∈ cart s ∧ CartItem.id c ≠ MenuItem.id item).
  { intros c. unfold removeFromCart, setCart; simpl.
    rewrite list_elem_of_filter.
    destruct (String.eqb_spec (CartItem.id c) (MenuItem.id item)) as [He|He];
      simpl; split; intros [H1 H2]; split; try done. }
  rewrite Hr. simpl. split; [reflexivity|]. split; [exact Hin|]. split.
  { unfold removeFromCart, setCart; simpl. apply sublist_filter. }
  unfold addToCart.
  destruct (Z.leb_spec (MenuItem.stock item) 0) as [?|_]; [lia|].
  rewrite cartQuantity_absent by (intros c Hc; by apply Hin in Hc as [_ ?]).
  by split.
Qed.

Variable toLocaleString : Z → string.

(** X8.  When what is stored as the transaction log is a text that is
    no array (its first character after the white space is not even an
    opening bracket), [JSON.parse] or [push] throws and checkout takes its
    error path: it raises "Error processing transaction" and nothing else
    happens; no stock is decremented, nothing is stored or queued, and the
    screen does not navigate. *)
Theorem handleCheckout_unreadable_log (user : option User.t) (clock : Clock)
    (s : State) (w : World) (text : string) :
  isHolidayMode s = false → cart s ≠ [] →
  getItem "transactions" w = Some (SText text) →
  text ≠ "" → opensArray text = false →
  handleCheckout toLocaleString user clock (s, w)
  = (s, toast (Toast.mk "Error processing transaction" "Please try again."
                        destructive) w).
Proof.
  intros Hh Hc Hstored Htext _. unfold handleCheckout. rewrite Hh.
  destruct (cart s) as [|c cs] eqn:E; [congruence|]. simpl length. simpl Nat.eqb.
  cbv iota. unfold savedTransactions. rewrite Hstored.
  by destruct text.
Qed.

Lemma calls_isHolidayMode (cs : list CartCall) (s : State) (w : World) :
  isHolidayMode (fst (calls cs (s, w))) = isHolidayMode s.
Proof.
  assert (Hstep : ∀ c s w, isHolidayMode (fst (call c (s, w)))
                           = isHolidayMode s).
  { clear. intros [item|itemId q] s w; simpl.
    - unfold addToCart. destruct (_ <=? _); [reflexivity|].
      destruct (find _ _); [|reflexivity].
      by destruct (_ >=? _).
    - unfold updateCartItemQuantity. destruct (_ <=? _); [reflexivity|].
      destruct (find _ _); [|reflexivity]. by destruct (_ >? _). }
  revert s w. induction cs as [|c cs IH]; intros s w; [reflexivity|].
  unfold calls. simpl. pose proof (Hstep c s w) as Hs.
  destruct (call c (s, w)) as [s' w']. simpl in Hs.
  rewrite <- Hs. apply IH.
Qed.

(** X9.  On a menu with distinct ids and no negative stock, whatever the
    cashier did to the cart, a checkout leaves no menu item with a negative
    stock, and no stock higher than before. *)
Theorem checkout_keeps_stock_in_range (menu : list MenuItem.t)
    (cs : list CartCall) (payment : PaymentMethod) (user : option User.t)
    (clock : Clock) (w : World) :
  NoDup (map MenuItem.id menu) →
  Forall (fun m => 0 ≤ MenuItem.stock m) menu →
  Forall (from_menu menu) cs →
  let before := calls cs (mkState menu [] payment false, w) in
  let after := handleCheckout toLocaleString user clock before in
  length (menuItems (fst after)) = length menu
  ∧ ∀ i m', menuItems (fst after) !! i = Some m' →
      ∃ m, menu !! i = Some m
           ∧ MenuItem.id m' = MenuItem.id m
           ∧ 0 ≤ MenuItem.stock m' ≤ MenuItem.stock m.
Proof.
  intros Hnd Hstock Hcs before after.
  assert (Hinv : cart_invariant menu (fst before)).
  { subst before. apply calls_invariant; [exact Hnd | exact Hcs |].
    split; [reflexivity|]. split; [|apply NoDup_nil_2].
    intros x Hx. by apply elem_of_nil in Hx. }
  assert (Hpos : Forall (fun c => 1 ≤ CartItem.quantity c) (cart (fst before)))
    by (subst before; apply calls_shape; simpl;
        [apply NoDup_nil_2 | apply Forall_nil_2]).
  assert (Hhol : isHolidayMode (fst before) = false)
    by (subst before; by rewrite calls_isHolidayMode).
  clearbody before. destruct before as [s1 w1]. simpl in *.
  destruct Hinv as (Hmenu & Hwithin & Hcart).
  assert (Hupd : ∀ i m', updatedMenuItems s1 !! i = Some m' →
            ∃ m, menu !! i = Some m ∧ MenuItem.id m' = MenuItem.id m
                 ∧ 0 ≤ MenuItem.stock m' ≤ MenuItem.stock m).
  { intros i m' Hm'.
    destruct (menuItems s1 !! i) as [m|] eqn:Hm.
    2:{ apply lookup_ge_None in Hm. apply lookup_lt_Some in Hm'.
        unfold updatedMenuItems in Hm'. rewrite length_map in Hm'. lia. }
    rewrite (updatedMenuItems_lookup s1 i m Hm) in Hm'. injection Hm' as <-.
    exists m. rewrite <- Hmenu. split; [exact Hm|]. split; [reflexivity|].
    simpl. assert (Hin : m ∈ menu)
      by (rewrite <- Hmenu; by eapply list_elem_of_lookup_2).
    pose proof (proj1 (Forall_forall _ _) Hstock m Hin) as Hm0. simpl in Hm0.
    unfold cartQuantity.
    destruct (find _ (cart s1)) as [c|] eqn:Ef; [|lia].
    apply find_Some_elem in Ef as [Hc Hid]. apply String.eqb_eq in Hid.
    pose proof (proj1 (Forall_forall _ _) Hpos c Hc) as Hq1. simpl in Hq1.
    destruct (Hwithin c Hc) as [_ Hle].
    specialize (Hle m Hin (eq_sym Hid)). lia. }
  subst after. unfold handleCheckout. rewrite Hhol.
  destruct (length (cart s1) =? 0)%nat.
  { simpl. rewrite Hmenu. split; [reflexivity|].
    intros i m' Hm'. exists m'. split; [exact Hm'|]. split; [reflexivity|].
    assert (Hin : m' ∈ menu) by (by eapply list_elem_of_lookup_2).
    pose proof (proj1 (Forall_forall _ _) Hstock m' Hin) as Hm0. simpl in Hm0. lia. }
  destruct (savedTransactions w1).
  - simpl. split; [|exact Hupd].
    unfold updatedMenuItems. by rewrite length_map, Hmenu.
  - simpl. rewrite Hmenu. split; [reflexivity|].
    intros i m' Hm'. exists m'. split; [exact Hm'|]. split; [reflexivity|].
    assert (Hin : m' ∈ menu) by (by eapply list_elem_of_lookup_2).
    pose proof (proj1 (Forall_forall _ _) Hstock m' Hin) as Hm0. simpl in Hm0. lia.
Qed.


(** X11.  The id of a transaction is ["TR-"] followed by the millisecond
    clock reading: two checkouts get the same id exactly when they read the
    same millisecond, whoever made them and whatever they sold. *)
Theorem transaction_id_is_the_clock_reading (user1 user2 : option User.t)
    (clock1 clock2 : Clock) (s1 s2 : State) :
  Transaction.id (newTransaction user1 clock1 s1)
  = Transaction.id (newTransaction user2 clock2 s2)
  ↔ dateNow clock1 = dateNow clock2.
Proof.
  simpl. split.
  - intros H. injection H as H.
    change (pretty (dateNow clock1) = pretty (dateNow clock2)) in H.
    by apply (inj pretty) in H.
  - by intros ->.
Qed.

End CartAndCheckoutFacts.

(** ** More on the stock screen of one store *)
Section StockScreenFacts.
Import StockControl.

Local Open Scope Z_scope.

Variable user : option User.t.
Variable clock : Clock.

Lemma localStorage_handleStockChange itemId newStock s w :
  0 ≤ newStock →
  localStorage (snd (handleStockChange user clock itemId newStock (s, w)))
  = <[stockItemsKey (user_storeId user)
      := SStockItems
           (stockItems
              (fst (handleStockChange user clock itemId newStock (s, w))))]>
      (localStorage w).
Proof.
  intros Hn. unfold handleStockChange.
  destruct (Z.ltb_spec newStock 0) as [?|_]; [lia|]. simpl.
  by destruct (is_offline (networkStatus w)).
Qed.

(** X12.  A negative stock is refused: the only effect is the destructive
    "Invalid stock value" notification.  Otherwise every item with the
    given id, and no other, gets the new current stock, at its position and
    with its other fields as they were; the list is stored under the
    store's key, also when no item has that id; and the queue gets exactly
    one ["UPDATE_STOCK_ITEM"] entry when offline and none when online. *)
Theorem handleStockChange_sets_that_stock (itemId : string) (newStock : Z)
    (s : State) (w : World) :
  let after := handleStockChange user clock itemId newStock (s, w) in
  (newStock < 0 →
   after = (s, toast (Toast.mk "Invalid stock value"
                        "Stock cannot be negative." destructive) w))
  ∧ (0 ≤ newStock →
     (∀ i item, stockItems s !! i = Some item →
        stockItems (fst after) !! i
        = Some (if String.eqb (StockItem.id item) itemId
                then StockItem.with_currentStock newStock item
                else item))
     ∧ length (stockItems (fst after)) = length (stockItems s)
     ∧ isSellingStarted (fst after) = isSellingStarted s
     ∧ getItem (stockItemsKey (user_storeId user)) (snd after)
       = Some (SStockItems (stockItems (fst after)))
     ∧ toasts (snd after) = toasts w
     ∧ (networkStatus w = online →
        pendingOperations (snd after) = pendingOperations w)
     ∧ (networkStatus w = offline →
        ∃ entry : Operation,
          pendingOperations (snd after) = pendingOperations w ++ [entry]
          ∧ entry !! "type" = Some (JString "UPDATE_STOCK_ITEM")
          ∧ entry !! "data"
            = Some (JUpdateStockItem (user_storeId user) (user_branchId user)
                      itemId newStock (payloadTime clock)))).
Proof.
  intros after. split.
  - intros Hneg. subst after. unfold handleStockChange.
    by destruct (Z.ltb_spec newStock 0) as [_|?]; [|lia].
  - intros Hn. split; [|split; [|split; [|split]]].
    + intros i item Hi. subst after. unfold handleStockChange.
      destruct (Z.ltb_spec newStock 0) as [?|_]; [lia|]. simpl.
      by rewrite list_lookup_fmap, Hi.
    + subst after. unfold handleStockChange.
      destruct (Z.ltb_spec newStock 0) as [?|_]; [lia|]. simpl.
      by rewrite length_map.
    + subst after. unfold handleStockChange.
      by destruct (Z.ltb_spec newStock 0) as [?|_]; [lia|].
    + unfold getItem. subst after.
      rewrite (localStorage_handleStockChange _ _ _ _ Hn).
      by rewrite lookup_insert_eq.
    + subst after. unfold handleStockChange.
      destruct (Z.ltb_spec newStock 0) as [?|_]; [lia|]. simpl.
      split; [by destruct (is_offline (networkStatus w))|]. split.
      * by intros ->.
      * intros ->. simpl. eexists. by repeat split.
Qed.





Lemma isTrue_true (key : string) (w : World) :
  getItem key w = Some (SText "true") → POSMount.isTrue key w = true.
Proof. intros H. unfold POSMount.isTrue. by rewrite H. Qed.

Lemma isTrue_false (key : string) (w : World) :
  getItem key w = Some (SText "false") → POSMount.isTrue key w = false.
Proof. intros H. unfold POSMount.isTrue. by rewrite H. Qed.

Lemma handleStockChange_keeps_flag itemId newStock s w :
  getItem (sellingStartedKey (user_storeId user))
    (snd (handleStockChange user clock itemId newStock (s, w)))
  = getItem (sellingStartedKey (user_storeId user)) w.
Proof.
  unfold handleStockChange, getItem. destruct (newStock <? 0); [reflexivity|].
  simpl. destruct (is_offline (networkStatus w)); simpl;
    by rewrite lookup_insert_ne by apply stockItemsKey_sellingStartedKey.
Qed.

Lemma handleStockChange_stores_list itemId newStock s w :
  getItem (stockItemsKey (user_storeId user)) w
  = Some (SStockItems (stockItems s)) →
  getItem (stockItemsKey (user_storeId user))
    (snd (handleStockChange user clock itemId newStock (s, w)))
  = Some (SStockItems
            (stockItems
               (fst (handleStockChange user clock itemId newStock (s, w))))).
Proof.
  intros Hs. unfold handleStockChange, getItem in *.
  destruct (newStock <? 0); [exact Hs|].
  simpl. destruct (is_offline (networkStatus w)); simpl;
    by rewrite lookup_insert_eq.
Qed.

Lemma changes_keep_stored (cs : list StockControlMount.StockCall)
    (flag : string) (s : State) (w : World) :
  Forall (fun c => ∃ itemId newStock,
            c = StockControlMount.StockChange itemId newStock) cs →
  getItem (sellingStartedKey (user_storeId user)) w = Some (SText flag) →
  getItem (stockItemsKey (user_storeId user)) w
  = Some (SStockItems (stockItems s)) →
  let after := StockControlMount.calls user clock cs (s, w) in
  getItem (sellingStartedKey (user_storeId user)) (snd after)
  = Some (SText flag)
  ∧ getItem (stockItemsKey (user_storeId user)) (snd after)
    = Some (SStockItems (stockItems (fst after))).
Proof.
  revert s w. induction cs as [|c cs IH]; intros s w Hcs Hflag Hlist;
    [by split|].
  apply Forall_cons in Hcs as [(itemId & newStock & ->) Hcs].
  unfold StockControlMount.calls in IH |- *. cbn [fold_left].
  pose proof (handleStockChange_keeps_flag itemId newStock s w) as H1.
  pose proof (handleStockChange_stores_list itemId newStock s w Hlist) as H2.
  change (handleStockChange user clock itemId newStock (s, w))
    with (StockControlMount.call user clock
            (StockControlMount.StockChange itemId newStock) (s, w))
    in H1, H2.
  destruct (StockControlMount.call user clock
              (StockControlMount.StockChange itemId newStock) (s, w))
    as [s' w'].
  simpl in H1, H2. apply IH; [exact Hcs | by rewrite H1 | exact H2].
Qed.

(** X14.  The stock screen survives a reload while the store is selling:
    after a start of selling followed by any stock changes, mounting the
    screen again for the same user shows the same stock list, marked as
    selling.  After an end of selling it shows the built-in list with the
    store not selling, whatever was stored. *)
Theorem stock_screen_remount (cs : list StockControlMount.StockCall)
    (s : State) (w : World) :
  Forall (fun c => ∃ itemId newStock,
            c = StockControlMount.StockChange itemId newStock) cs →
  (let after := StockControlMount.calls user clock
                  (StockControlMount.StartSelling :: cs) (s, w) in
   StockControlMount.mount user (snd after)
   = Some (mkState (stockItems (fst after)) true false false))
  ∧ (let after := StockControlMount.calls user clock
                    (StockControlMount.EndSelling :: cs) (s, w) in
     StockControlMount.mount user (snd after)
     = Some (mkState StockControlMount.mockStockItems false false false)).
Proof.
  intros Hcs.
  assert (Hne : sellingStartedKey (user_storeId user)
                ≠ stockItemsKey (user_storeId user))
    by (intros H; by apply (stockItemsKey_sellingStartedKey _ _ (eq_sym H))).
  split.
  - intros after. subst after.
    unfold StockControlMount.calls. cbn [fold_left].
    change (StockControlMount.call user clock StockControlMount.StartSelling
              (s, w))
      with (handleStartSelling user clock (s, w)).
    assert (Hflag : getItem (sellingStartedKey (user_storeId user))
                      (snd (handleStartSelling user clock (s, w)))
                    = Some (SText "true")).
    { unfold getItem. rewrite localStorage_handleStartSelling.
      by rewrite lookup_insert_eq. }
    assert (Hlist : getItem (stockItemsKey (user_storeId user))
                      (snd (handleStartSelling user clock (s, w)))
                    = Some (SStockItems
                              (stockItems
                                 (fst (handleStartSelling user clock (s, w)))))).
    { unfold getItem. rewrite localStorage_handleStartSelling.
      rewrite lookup_insert_ne by exact Hne. by rewrite lookup_insert_eq. }
    destruct (handleStartSelling user clock (s, w)) as [s1 w1].
    simpl in Hflag, Hlist.
    destruct (changes_keep_stored cs "true" s1 w1 Hcs Hflag Hlist)
      as [Hf Hl].
    unfold StockControlMount.calls in Hf, Hl.
    destruct (fold_left _ cs (s1, w1)) as [s2 w2]. simpl in Hf, Hl |- *.
    unfold StockControlMount.mount. by rewrite (isTrue_true _ _ Hf), Hl.
  - intros after. subst after.
    unfold StockControlMount.calls. cbn [fold_left].
    change (StockControlMount.call user clock StockControlMount.EndSelling
              (s, w))
      with (handleEndSelling user clock (s, w)).
    assert (Hflag : getItem (sellingStartedKey (user_storeId user))
                      (snd (handleEndSelling user clock (s, w)))
                    = Some (SText "false")).
    { unfold getItem. rewrite localStorage_handleEndSelling.
      by rewrite lookup_insert_eq. }
    assert (Hlist : getItem (stockItemsKey (user_storeId user))
                      (snd (handleEndSelling user clock (s, w)))
                    = Some (SStockItems
                              (stockItems
                                 (fst (handleEndSelling user clock (s, w)))))).
    { unfold getItem. rewrite localStorage_handleEndSelling.
      rewrite lookup_insert_ne by exact Hne. by rewrite lookup_insert_eq. }
    destruct (handleEndSelling user clock (s, w)) as [s1 w1].
    simpl in Hflag, Hlist.
    destruct (changes_keep_stored cs "false" s1 w1 Hcs Hflag Hlist)
      as [Hf Hl].
    unfold StockControlMount.calls in Hf, Hl.
    destruct (fold_left _ cs (s1, w1)) as [s2 w2]. simpl in Hf, Hl |- *.
    unfold StockControlMount.mount. by rewrite (isTrue_false _ _ Hf).
Qed.

End StockScreenFacts.

(** ** The stock screen of several stores *)
Section StoresScreenFacts.
Import StockControlStores.

Local Open Scope Z_scope.

Variable user : option User.t.
Variable clock : Clock.





(** X17.  Changing the stock of an item on this screen also assigns the
    item to the selected store, whichever store it belonged to: every item
    with the given id gets the new stock and the selected store's id, the
    others are unchanged.  A negative stock is refused with "Invalid stock
    value" and no other effect. *)
Theorem stores_stock_change_reassigns (itemId : string) (newStock : Z)
    (s : State) (w : World) :
  let after := handleStockChange user clock itemId newStock (s, w) in
  (newStock < 0 →
   after = (s, toast (Toast.mk "Invalid stock value"
                        "Stock cannot be negative." destructive) w))
  ∧ (0 ≤ newStock →
     (∀ i item, stockItems s !! i = Some item →
        (StoreStockItem.id item ≠ itemId →
         stockItems (fst after) !! i = Some item)
        ∧ (StoreStockItem.id item = itemId →
           ∃ item', stockItems (fst after) !! i = Some item'
                    ∧ StoreStockItem.currentStock item' = newStock
                    ∧ StoreStockItem.storeId item' = selectedStoreId s
                    ∧ StoreStockItem.id item' = itemId
                    ∧ StoreStockItem.initialStock item'
                      = StoreStockItem.initialStock item))
     ∧ sellingStartedStores (fst after) = sellingStartedStores s
     ∧ getItem "stockItems" (snd after)
       = Some (SStoreStockItems (stockItems (fst after)))).
Proof.
  intros after. subst after. unfold handleStockChange. split.
  - intros Hneg. by destruct (Z.ltb_spec newStock 0) as [_|?]; [|lia].
  - intros Hn. destruct (Z.ltb_spec newStock 0) as [?|_]; [lia|].
    split; [|split].
    + intros i item Hi. simpl. rewrite list_lookup_fmap, Hi. simpl. split.
      * intros H. apply String.eqb_neq in H. by rewrite H.
      * intros H. pose proof H as H'. apply String.eqb_eq in H'. rewrite H'.
        eexists. split; [reflexivity|]. by repeat split.
    + reflexivity.
    + unfold getItem. simpl.
      destruct (is_offline (networkStatus w)); simpl;
        by rewrite lookup_insert_eq.
Qed.


End StoresScreenFacts.

(** ** The requests of the remote-backed start of selling *)
Section RemoteRequestFacts.
Import StockControlRemote.

Local Open Scope nat_scope.

Variable remote : Remote.
Variable clock : Clock.
Variable store : string.

Lemma createOrUpdate_requests (items : list StoreStockItem.t) (n : nat)
    (sent : list Request) :
  ∃ more,
    fst (createOrUpdate remote clock store items n sent) = sent ++ more
    ∧ (snd (createOrUpdate remote clock store items n sent) = true →
       length more = 2 * length items
       ∧ (items ≠ [] →
          remote (fst (createOrUpdate remote clock store items n sent))
          ≠ Error)
       ∧ ∀ i item, items !! i = Some item →
           more !! (2 * i)
           = Some (SelectId store (StoreStockItem.id item) (today clock (n + i)))
           ∧ ((∃ id, more !! (2 * i + 1)
                     = Some (Update id (StoreStockItem.initialStock item) true))
              ∨ more !! (2 * i + 1)
                = Some (Insert store (StoreStockItem.id item)
                          (StoreStockItem.initialStock item) true
                          (today clock (n + i)))))
    ∧ (snd (createOrUpdate remote clock store items n sent) = false →
       more ≠ []
       ∧ remote (fst (createOrUpdate remote clock store items n sent))
         = Error).
Proof.
  revert n sent. induction items as [|item rest IH]; intros n sent.
  { exists []. simpl. rewrite app_nil_r. split; [reflexivity|]. split.
    - intros _. split; [reflexivity|]. split; [done|].
      intros i item Hi. by rewrite lookup_nil in Hi.
    - discriminate. }
  simpl.
  set (lookup := SelectId store (StoreStockItem.id item) (today clock n)).
  destruct (remote (sent ++ [lookup])) as [|existingRecord] eqn:E1.
  { exists [lookup]. simpl. split; [reflexivity|]. split; [discriminate|].
    intros _. split; [discriminate | exact E1]. }
  match goal with
  | |- context [(sent ++ [lookup]) ++ [?x]] => set (write := x)
  end.
  destruct (remote ((sent ++ [lookup]) ++ [write])) as [|d] eqn:E2.
  { exists [lookup; write]. simpl.
    split; [by rewrite <- app_assoc|]. split; [discriminate|].
    intros _. split; [discriminate | exact E2]. }
  destruct (IH (S n) ((sent ++ [lookup]) ++ [write]))
    as (more & Hfst & Hok & Hfail).
  exists (lookup :: write :: more).
  split; [rewrite Hfst; by rewrite <- !app_assoc|]. split.
  - intros Htrue. destruct (Hok Htrue) as (Hlen & Hlast & Hitems).
    split; [simpl; lia|]. split.
    + intros _. destruct rest as [|item' rest'].
      * simpl in *. by rewrite E2.
      * by apply Hlast.
    + intros [|i] it Hi.
      * simpl in Hi. injection Hi as <-. replace (n + 0) with n by lia. simpl.
        split; [reflexivity|]. subst write.
        destruct existingRecord as [id|]; [left; by exists id | by right].
      * simpl in Hi. destruct (Hitems i it Hi) as [Hsel Hwr].
        replace (S i + (S i + 0)) with (S (S (2 * i))) by lia.
        replace (S (S (2 * i)) + 1) with (S (S (2 * i + 1))) by lia.
        replace (n + S i) with (S n + i) by lia. exact (conj Hsel Hwr).
  - intros Hfalse. destruct (Hfail Hfalse) as [_ Herr].
    split; [discriminate | exact Herr].
Qed.

(** X19.  When a request of the start of selling fails, the handler stops
    there and the screen is as before: stock list, started stores,
    localStorage and queue are unchanged; only the start dialog is closed
    and the destructive "Error" notification is raised.  The requests
    already sent are not taken back; the failed one is the last. *)
Theorem remote_start_failure_keeps_screen (user : option User.t)
    (s : State) (w : World) :
  selectedStoreId s = store → store ≠ "" →
  let after := handleStartSelling remote user clock (s, w) in
  snd after ≠ [] → remote (snd after) = Error →
  stockItems (fst (fst after)) = stockItems s
  ∧ sellingStartedStores (fst (fst after)) = sellingStartedStores s
  ∧ showStartSellingDialog (fst (fst after)) = false
  ∧ localStorage (snd (fst after)) = localStorage w
  ∧ pendingOperations (snd (fst after)) = pendingOperations w
  ∧ toasts (snd (fst after))
    = toasts w ++ [Toast.mk "Error"
                     "Could not start selling. Please try again."
                     destructive].
Proof.
  intros Hsel Hne after. subst after. unfold handleStartSelling.
  rewrite Hsel. apply String.eqb_neq in Hne. rewrite Hne.
  match goal with
  | |- context [createOrUpdate remote clock store ?items 0 []] =>
      destruct (createOrUpdate_requests items 0 [])
        as (more & Hfst & Hok & _);
      destruct (createOrUpdate remote clock store items 0 [])
        as [sent ok] eqn:E
  end.
  simpl in Hfst, Hok. destruct ok; simpl; [|by repeat split].
  intros Hsent Herr. exfalso.
  destruct (Hok eq_refl) as (Hlen & Hlast & _).
  destruct (stockItems s) as [|item items] eqn:Eitems.
  - simpl in Hlen. destruct more; [|discriminate]. by subst sent.
  - by apply Hlast.
Qed.


End RemoteRequestFacts.

(** ** The transaction history: pages *)
Section PagerFacts.
Import TransactionHistory.

Lemma slice_nat {A} (start final : nat) (l : list A) :
  slice (Z.of_nat start) (Z.of_nat final) l
  = take (final - start) (drop start l).
Proof.
  unfold slice.
  destruct (Z.ltb_spec (Z.of_nat start) 0) as [?|_]; [lia|].
  destruct (Z.ltb_spec (Z.of_nat final) 0) as [?|_]; [lia|].
  destruct (Nat.le_gt_cases start (length l)) as [Hs|Hs].
  - rewrite (Z.min_l (Z.of_nat start)) by lia. rewrite Nat2Z.id.
    destruct (Nat.le_gt_cases final (length l)) as [Hf|Hf].
    + rewrite (Z.min_l (Z.of_nat final)) by lia. f_equal. lia.
    + rewrite (Z.min_r (Z.of_nat final)) by lia.
      rewrite !take_ge; [reflexivity | |]; rewrite length_drop; lia.
  - rewrite (Z.min_r (Z.of_nat start)) by lia. rewrite Nat2Z.id.
    rewrite !drop_ge by lia. by rewrite !take_nil.
Qed.

Lemma paginatedTransactions_page (p : nat) (l : list Transaction.t) :
  paginatedTransactions (Z.of_nat (S p)) l = take 10 (drop (10 * p) l).
Proof.
  unfold paginatedTransactions, transactionsPerPage.
  replace ((Z.of_nat (S p) - 1) * 10)%Z with (Z.of_nat (10 * p)) by lia.
  replace (Z.of_nat (10 * p) + 10)%Z with (Z.of_nat (10 * p + 10)) by lia.
  rewrite slice_nat. f_equal. lia.
Qed.

Lemma totalPages_bounds (l : list Transaction.t) :
  (0 ≤ totalPages l
   ∧ Z.of_nat (length l) ≤ 10 * totalPages l < Z.of_nat (length l) + 10)%Z.
Proof.
  unfold totalPages, transactionsPerPage.
  Z.to_euclidean_division_equations. lia.
Qed.

Lemma pages_concat (l : list Transaction.t) (n : nat) :
  concat (map (fun p => paginatedTransactions (Z.of_nat p) l) (seq 1 n))
  = take (10 * n) l.
Proof.
  induction n as [|n IH]; [by rewrite Nat.mul_0_r|].
  rewrite seq_S, map_app, concat_app, IH. simpl map. simpl concat.
  rewrite app_nil_r.
  change (1 + n) with (S n). rewrite paginatedTransactions_page.
  rewrite take_take_drop. f_equal. lia.
Qed.

Lemma page_nonempty (l : list Transaction.t) (p : Z) :
  (1 ≤ p ≤ totalPages l)%Z → paginatedTransactions p l ≠ [].
Proof.
  intros Hp. pose proof (totalPages_bounds l) as Hb.
  replace p with (Z.of_nat (S (Z.to_nat (p - 1)))) by lia.
  rewrite paginatedTransactions_page. intros H.
  apply (f_equal length) in H. rewrite length_take, length_drop in H.
  change (length (@nil Transaction.t)) with 0 in H. lia.
Qed.

(** X21.  The pages split the list: page 1 to the last page, one after the
    other, give back the whole list in order.  No page holds more than ten
    transactions, every page from 1 to the last holds at least one, and a
    page beyond the last is empty (as is every page when the list is
    empty). *)
Theorem pages_split_the_list (l : list Transaction.t) :
  concat (map (fun p => paginatedTransactions (Z.of_nat p) l)
              (seq 1 (Z.to_nat (totalPages l))))
  = l
  ∧ (∀ p : Z, length (paginatedTransactions p l) ≤ 10)
  ∧ (∀ p : Z, (1 ≤ p ≤ totalPages l)%Z → paginatedTransactions p l ≠ [])
  ∧ (∀ p : Z, (totalPages l < p)%Z → paginatedTransactions p l = []).
Proof.
  pose proof (totalPages_bounds l) as Hb.
  split; [|split; [|split]].
  - rewrite pages_concat. apply take_ge. lia.
  - intros p. unfold paginatedTransactions, slice, transactionsPerPage.
    rewrite length_take.
    destruct (_ <? 0)%Z eqn:E1; destruct (_ <? 0)%Z eqn:E2 in |- *;
      apply Z.ltb_lt in E1 || apply Z.ltb_ge in E1;
      apply Z.ltb_lt in E2 || apply Z.ltb_ge in E2; lia.
  - apply page_nonempty.
  - intros p Hp.
    replace p with (Z.of_nat (S (Z.to_nat (p - 1)))) by lia.
    rewrite paginatedTransactions_page.
    rewrite drop_ge by lia. apply take_nil.
Qed.

(** X22.  From a page between 1 and the last, the previous and next
    controls lead to a page between 1 and the last again, so to a page that
    is not empty; on page 1 the previous control stays on page 1 and on the
    last page the next control stays on the last page. *)
Theorem pager_stays_on_pages (l : list Transaction.t) (p : Z) :
  (1 ≤ p ≤ totalPages l)%Z →
  (1 ≤ previousPage p ≤ totalPages l)%Z
  ∧ (1 ≤ nextPage (totalPages l) p ≤ totalPages l)%Z
  ∧ paginatedTransactions (previousPage p) l ≠ []
  ∧ paginatedTransactions (nextPage (totalPages l) p) l ≠ []
  ∧ previousPage 1 = 1%Z
  ∧ nextPage (totalPages l) (totalPages l) = totalPages l.
Proof.
  intros Hp. unfold previousPage, nextPage.
  assert (H1 : (1 ≤ Z.max 1 (p - 1) ≤ totalPages l)%Z) by lia.
  assert (H2 : (1 ≤ Z.min (totalPages l) (p + 1) ≤ totalPages l)%Z) by lia.
  split; [exact H1|]. split; [exact H2|].
  split; [by apply page_nonempty|]. split; [by apply page_nonempty|].
  split; lia.
Qed.

End PagerFacts.

(** ** The transaction history: loading *)
Section HistoryFacts.
Import TransactionHistory.

Local Open Scope Z_scope.

Variable getTime : string → Z.

Lemma insertNewestFirst_Permutation (t : Transaction.t)
    (l : list Transaction.t) :
  insertNewestFirst getTime t l ≡ₚ t :: l.
Proof.
  induction l as [|u rest IH]; simpl; [reflexivity|].
  destruct (_ <? _); [reflexivity|].
  rewrite IH. apply Permutation_swap.
Qed.

Lemma sortNewestFirst_Permutation (l : list Transaction.t) :
  sortNewestFirst getTime l ≡ₚ l.
Proof.
  unfold sortNewestFirst.
  assert (H : ∀ acc, fold_left
                       (fun sorted t => insertNewestFirst getTime t sorted)
                       l acc ≡ₚ l ++ acc).
  { induction l as [|t l IH]; intros acc; simpl; [reflexivity|].
    rewrite IH, insertNewestFirst_Permutation.
    by rewrite Permutation_middle. }
  by rewrite H, app_nil_r.
Qed.

Lemma elem_of_storeTransactions (storeId : option string)
    (stored : list Transaction.t) (t : Transaction.t) :
  t ∈ sortNewestFirst getTime (List.filter (ofStore storeId) stored)
  ↔ t ∈ stored ∧ Some (Transaction.storeId t) = storeId.
Proof.
  rewrite sortNewestFirst_Permutation, list_elem_of_In, filter_In,
    <- list_elem_of_In.
  unfold ofStore. destruct storeId as [id|].
  - rewrite String.eqb_eq. split; intros [H1 H2]; split; congruence.
  - split; intros [H1 H2]; split; congruence.
Qed.

(** X23.  The history screen loads, from the stored log, exactly the
    transactions whose store is the user's store, each as often as it is
    stored.  It starts on page 1 with the transaction named in the address
    highlighted; the transaction it opens is one of those shown and has
    that id, and none is opened only when no shown transaction has it.
    With no stored log the list is empty. *)
Theorem history_loads_store_transactions (transactionId : option string)
    (user : option User.t) (w : World) :
  (getItem "transactions" w = None →
   mount getTime transactionId user w
   = Some (mkState [] (truthy transactionId) None 1))
  ∧ (∀ stored, getItem "transactions" w = Some (STransactions stored) →
     ∃ st,
       mount getTime transactionId user w = Some st
       ∧ transactions st
         ≡ₚ List.filter (ofStore (user_storeId user)) stored
       ∧ (∀ t, t ∈ transactions st
               ↔ t ∈ stored
                 ∧ Some (Transaction.storeId t) = user_storeId user)
       ∧ currentPage st = 1
       ∧ highlightedTransactionId st = truthy transactionId
       ∧ (∀ t, selectedTransaction st = Some t →
               t ∈ transactions st
               ∧ highlightedTransactionId st = Some (Transaction.id t))
       ∧ (selectedTransaction st = None →
          ∀ t, t ∈ transactions st →
               highlightedTransactionId st ≠ Some (Transaction.id t))).
Proof.
  unfold mount. split; [by intros ->|].
  intros stored ->. eexists. split; [reflexivity|]. simpl.
  split; [apply sortNewestFirst_Permutation|].
  split; [apply elem_of_storeTransactions|].
  split; [reflexivity|]. split; [reflexivity|].
  destruct (truthy transactionId) as [id|]; simpl.
  - split.
    + intros t Hfind. apply find_Some_elem in Hfind as [Hin Hid].
      apply String.eqb_eq in Hid. by rewrite Hid.
    + intros Hnone t Hin Hid. injection Hid as ->.
      pose proof (find_None_elem _ _ Hnone t Hin) as E. simpl in E.
      by rewrite String.eqb_refl in E.
  - split; [discriminate | done].
Qed.

Variable toLocaleString : Z → string.

Lemma transactions_after_checkout (user : option User.t)
    (clock : POSInterface.Clock) (s : POSInterface.State) (w : World)
    (stored : list Transaction.t) :
  POSInterface.isHolidayMode s = false → POSInterface.cart s ≠ [] →
  POSInterface.savedTransactions w = Some stored →
  getItem "transactions"
    (snd (POSInterface.handleCheckout toLocaleString user clock (s, w)))
  = Some (STransactions
            (stored ++ [POSInterface.newTransaction user clock s])).
Proof.
  intros Hh Hc Hs.
  rewrite (handleCheckout_ok _ _ _ _ _ _ Hh Hc Hs). simpl snd.
  unfold getItem. simpl.
  destruct (is_offline (networkStatus w)); simpl;
    rewrite lookup_insert_ne by done; by rewrite lookup_insert_eq.
Qed.

(** X24.  After a successful checkout by a user who has a store, the
    history screen opened at the address the checkout navigated to lists
    the new transaction, highlights its id and opens a transaction with
    that id: the new transaction itself when no transaction stored before
    has the same id. *)
Theorem history_opens_new_transaction (user : option User.t)
    (storeId : string) (clock : POSInterface.Clock)
    (s : POSInterface.State) (w : World) (stored : list Transaction.t) :
  user_storeId user = Some storeId →
  POSInterface.isHolidayMode s = false → POSInterface.cart s ≠ [] →
  POSInterface.savedTransactions w = Some stored →
  let after := POSInterface.handleCheckout toLocaleString user clock (s, w) in
  let new := POSInterface.newTransaction user clock s in
  location (snd after)
  = Some ("/pos/history?transactionId=" +:+ Transaction.id new)
  ∧ ∃ st,
      mount getTime (Some (Transaction.id new)) user (snd after) = Some st
      ∧ new ∈ transactions st
      ∧ highlightedTransactionId st = Some (Transaction.id new)
      ∧ ∃ opened,
          selectedTransaction st = Some opened
          ∧ Transaction.id opened = Transaction.id new
          ∧ ((∀ old, old ∈ stored →
                     Transaction.id old ≠ Transaction.id new) →
             opened = new).
Proof.
  intros Hstore Hh Hc Hs after new.
  pose proof (transactions_after_checkout user clock s w stored Hh Hc Hs)
    as Hlog.
  fold after in Hlog. fold new in Hlog.
  split.
  { subst after. by rewrite (handleCheckout_ok _ _ _ _ _ _ Hh Hc Hs). }
  unfold mount. rewrite Hlog.
  assert (Hid : truthy (Some (Transaction.id new))
                = Some (Transaction.id new)) by reflexivity.
  rewrite Hid. eexists. split; [reflexivity|]. simpl.
  assert (Hin : new ∈ sortNewestFirst getTime
                        (List.filter (ofStore (user_storeId user))
                                     (stored ++ [new]))).
  { apply elem_of_storeTransactions. split.
    - apply elem_of_app. right. by apply list_elem_of_singleton.
    - subst new. simpl. by rewrite Hstore. }
  split; [exact Hin|]. split; [reflexivity|].
  destruct (find _ (sortNewestFirst getTime _)) as [opened|] eqn:Ef.
  - exists opened. split; [reflexivity|].
    apply find_Some_elem in Ef as [Hopened Heq].
    apply String.eqb_eq in Heq. split; [exact Heq|].
    intros Hfresh. apply elem_of_storeTransactions in Hopened as [Ho _].
    apply elem_of_app in Ho as [Ho|Ho].
    + by destruct (Hfresh opened Ho).
    + by apply list_elem_of_singleton in Ho.
  - pose proof (find_None_elem _ _ Ef new Hin) as E. simpl in E.
    by rewrite String.eqb_refl in E.
Qed.

(** X25.  A user without a store can check out, and the transaction is
    stored with the empty store id; but the history screen of that user
    compares the store id of each transaction with the user's missing one,
    so it lists nothing and opens nothing, the new transaction
    included. *)
Theorem history_hides_sales_without_store (user : option User.t)
    (clock : POSInterface.Clock) (s : POSInterface.State) (w : World)
    (stored : list Transaction.t) :
  user_storeId user = None →
  POSInterface.isHolidayMode s = false → POSInterface.cart s ≠ [] →
  POSInterface.savedTransactions w = Some stored →
  let after := POSInterface.handleCheckout toLocaleString user clock (s, w) in
  let new := POSInterface.newTransaction user clock s in
  getItem "transactions" (snd after) = Some (STransactions (stored ++ [new]))
  ∧ Transaction.storeId new = ""
  ∧ mount getTime (Some (Transaction.id new)) user (snd after)
    = Some (mkState [] (Some (Transaction.id new)) None 1).
Proof.
  intros Hstore Hh Hc Hs after new.
  pose proof (transactions_after_checkout user clock s w stored Hh Hc Hs)
    as Hlog.
  fold after in Hlog. fold new in Hlog.
  split; [exact Hlog|]. split; [subst new; simpl; by rewrite Hstore|].
  unfold mount. rewrite Hlog, Hstore.
  assert (Hnone : ∀ l, List.filter (ofStore None) l = [])
    by (induction l as [|t l IH]; [reflexivity | exact IH]).
  rewrite Hnone. reflexivity.
Qed.

End HistoryFacts.

(** ** The extras on concrete inputs *)

Lemma reload_restores_stored_queue_witness :
  getItem "pendingOperations" (Sample.world offline Sample.queue) = None
  ∧ ∃ w1, PwaContext.reload true (Sample.world offline Sample.queue) = Some w1
          ∧ pendingOperations w1 = [].
Proof.
  split; [reflexivity|].
  destruct (reload_restores_stored_queue true true
              (Sample.world offline Sample.queue)) as [Hnone _].
  destruct (Hnone eq_refl) as (w1 & Hr & Hq & _).
  exists w1. by split.
Defined.

Lemma drained_queue_stays_empty_witness :
  networkStatus (Sample.world online Sample.queue) = online
  ∧ pendingOperations (Sample.world online Sample.queue) ≠ []
  ∧ getItem "pendingOperations"
      (PwaContext.commit
         (PwaContext.processPendingOperations
            (Sample.world online Sample.queue)))
    = Some (SOperations [])
  ∧ toasts
      (PwaProvider.processPendingOperationsOf online Sample.queue
         (PwaContext.processPendingOperations
            (Sample.world online Sample.queue)))
    = [syncComplete 2; syncComplete 2].
Proof.
  split; [reflexivity|]. split; [discriminate|].
  destruct (drained_queue_stays_empty (Sample.world online Sample.queue) true
              eq_refl) as (Hstored & _ & _ & Hagain).
  split; [exact Hstored|].
  exact (proj2 (Hagain ltac:(discriminate))).
Defined.

Lemma remove_then_add_starts_fresh_line_witness :
  (0 ≤ 0)%Z ∧ (0 < MenuItem.stock Sample.icedCoffee)%Z
  ∧ POSInterface.cart
      (fst (POSInterface.addToCart Sample.icedCoffee
              (POSInterface.updateCartItemQuantity
                 (MenuItem.id Sample.icedCoffee) 0
                 (Sample.pos, Sample.world online []))))
    = [CartItem.mk Sample.icedCoffee 1].
Proof.
  split; [lia|]. split; [reflexivity|].
  destruct (remove_then_add_starts_fresh_line Sample.icedCoffee 0 Sample.pos
              (Sample.world online []) ltac:(lia) eq_refl)
    as (_ & _ & _ & Hadd & _).
  rewrite Hadd. reflexivity.
Defined.

Lemma handleCheckout_unreadable_log_witness :
  POSInterface.isHolidayMode Sample.pos = false
  ∧ POSInterface.cart Sample.pos ≠ []
  ∧ getItem "transactions" Scenario.unreadableLog = Some (SText "oops")
  ∧ "oops" ≠ ""
  ∧ opensArray "oops" = false
  ∧ POSInterface.handleCheckout Sample.plainLocale (Some Sample.cashier)
      Sample.posClock (Sample.pos, Scenario.unreadableLog)
    = (Sample.pos,
       toast (Toast.mk "Error processing transaction" "Please try again."
                       destructive) Scenario.unreadableLog).
Proof.
  split; [reflexivity|]. split; [discriminate|]. split; [reflexivity|].
  split; [discriminate|]. split; [reflexivity|].
  apply (handleCheckout_unreadable_log Sample.plainLocale
           (Some Sample.cashier) Sample.posClock Sample.pos
           Scenario.unreadableLog "oops");
    [reflexivity | discriminate | reflexivity | discriminate | reflexivity].
Defined.

Lemma checkout_keeps_stock_in_range_witness :
  NoDup (map MenuItem.id Sample.menu)
  ∧ Forall (fun m => (0 ≤ MenuItem.stock m)%Z) Sample.menu
  ∧ Forall (from_menu Sample.menu)
      [POSInterface.AddToCart Sample.icedCoffee;
       POSInterface.UpdateQuantity "1" 10]
  ∧ length
      (POSInterface.menuItems
         (fst (POSInterface.handleCheckout Sample.plainLocale
                 (Some Sample.cashier) Sample.posClock
                 (POSInterface.calls
                    [POSInterface.AddToCart Sample.icedCoffee;
                     POSInterface.UpdateQuantity "1" 10]
                    (POSInterface.mkState Sample.menu [] cash false,
                     Sample.world online [])))))
    = length Sample.menu.
Proof.
  assert (H1 : NoDup (map MenuItem.id Sample.menu))
    by (apply (bool_decide_unpack _); vm_compute; exact I).
  assert (H2 : Forall (fun m => (0 ≤ MenuItem.stock m)%Z) Sample.menu)
    by (repeat constructor; simpl; lia).
  assert (H3 : Forall (from_menu Sample.menu)
                 [POSInterface.AddToCart Sample.icedCoffee;
                  POSInterface.UpdateQuantity "1" 10])
    by repeat constructor.
  split; [exact H1|]. split; [exact H2|]. split; [exact H3|].
  exact (proj1 (checkout_keeps_stock_in_range Sample.plainLocale Sample.menu
                  [POSInterface.AddToCart Sample.icedCoffee;
                   POSInterface.UpdateQuantity "1" 10]
                  cash (Some Sample.cashier) Sample.posClock
                  (Sample.world online []) H1 H2 H3)).
Defined.


Lemma handleStockChange_sets_that_stock_witness :
  (0 ≤ 4)%Z
  ∧ StockControl.stockItems
      (fst (StockControl.handleStockChange (Some Sample.cashier)
              Sample.stockClock "1" 4
              (Sample.stock, Sample.world online [])))
    !! 0%nat
    = Some (StockItem.mk "1" "Iced Coffee" 4 5 10).
Proof.
  split; [lia|].
  destruct (handleStockChange_sets_that_stock (Some Sample.cashier)
              Sample.stockClock "1" 4 Sample.stock (Sample.world online []))
    as [_ Hok].
  destruct (Hok ltac:(lia)) as (Hitems & _).
  exact (Hitems 0%nat _ eq_refl).
Defined.

Lemma stock_screen_remount_witness :
  Forall (fun c => ∃ itemId newStock,
            c = StockControlMount.StockChange itemId newStock)
         [StockControlMount.StockChange "1" 4]
  ∧ StockControlMount.mount (Some Sample.cashier)
      (snd (StockControlMount.calls (Some Sample.cashier) Sample.stockClock
              [StockControlMount.StartSelling;
               StockControlMount.StockChange "1" 4]
              (Sample.stock, Sample.world online [])))
    = Some (StockControl.mkState
              [StockItem.mk "1" "Iced Coffee" 4 5 10;
               StockItem.mk "2" "Hot Coffee" 15 5 15]
              true false false).
Proof.
  assert (H : Forall (fun c => ∃ itemId newStock,
                        c = StockControlMount.StockChange itemId newStock)
                     [StockControlMount.StockChange "1" 4])
    by (repeat constructor; by exists "1", 4%Z).
  split; [exact H|].
  exact (proj1 (stock_screen_remount (Some Sample.cashier) Sample.stockClock
                  [StockControlMount.StockChange "1" 4] Sample.stock
                  (Sample.world online []) H)).
Defined.



Lemma stores_stock_change_reassigns_witness :
  (0 ≤ 6)%Z
  ∧ ∃ item',
      StockControlStores.stockItems
        (fst (StockControlStores.handleStockChange (Some Sample.cashier)
                Scenario.storesClock "2" 6
                (Scenario.stores, Sample.world online [])))
      !! 1%nat = Some item'
      ∧ StoreStockItem.storeId item' = "A".
Proof.
  split; [lia|].
  destruct (stores_stock_change_reassigns (Some Sample.cashier)
              Scenario.storesClock "2" 6 Scenario.stores
              (Sample.world online [])) as [_ Hok].
  destruct (Hok ltac:(lia)) as (Hitems & _).
  destruct (Hitems 1%nat _ eq_refl) as [_ Hsame].
  destruct (Hsame eq_refl) as (item' & Hi & _ & Hstore & _).
  exists item'. by split.
Defined.


Lemma remote_start_failure_keeps_screen_witness :
  StockControlRemote.selectedStoreId Sample.remoteStock = "A"
  ∧ "A" ≠ ""
  ∧ StockControlRemote.stockItems
      (fst (fst (StockControlRemote.handleStartSelling Scenario.failing
                   (Some Sample.cashier) Sample.remoteClock
                   (Sample.remoteStock, Sample.world online []))))
    = StockControlRemote.stockItems Sample.remoteStock.
Proof.
  split; [reflexivity|]. split; [discriminate|].
  exact (proj1 (remote_start_failure_keeps_screen Scenario.failing
                  Sample.remoteClock "A" (Some Sample.cashier)
                  Sample.remoteStock (Sample.world online [])
                  eq_refl ltac:(discriminate) ltac:(discriminate) eq_refl)).
Defined.


Lemma pages_split_the_list_witness :
  (1 ≤ 3 ≤ TransactionHistory.totalPages Scenario.sales)%Z
  ∧ TransactionHistory.paginatedTransactions 3 Scenario.sales ≠ [].
Proof.
  assert (H : (1 ≤ 3 ≤ TransactionHistory.totalPages Scenario.sales)%Z)
    by (vm_compute; split; discriminate).
  split; [exact H|].
  destruct (pages_split_the_list Scenario.sales) as (_ & _ & Hne & _).
  exact (Hne 3%Z H).
Defined.

Lemma pager_stays_on_pages_witness :
  (1 ≤ 3 ≤ TransactionHistory.totalPages Scenario.sales)%Z
  ∧ TransactionHistory.paginatedTransactions
      (TransactionHistory.nextPage
         (TransactionHistory.totalPages Scenario.sales) 3)
      Scenario.sales
    ≠ [].
Proof.
  assert (H : (1 ≤ 3 ≤ TransactionHistory.totalPages Scenario.sales)%Z)
    by (vm_compute; split; discriminate).
  split; [exact H|].
  destruct (pager_stays_on_pages Scenario.sales 3 H) as (_ & _ & _ & Hn & _).
  exact Hn.
Defined.

(** Among the twenty-three stored sales of the cashier's store and two of
    another store, the history screen opened for ["TR-12"] lists the
    twenty-three and opens the sale with that id. *)
Lemma history_loads_store_transactions_witness :
  getItem "transactions" Scenario.history
  = Some (STransactions
            (Scenario.elsewhere 12
             :: (Scenario.sales ++ [Scenario.elsewhere 40])))
  ∧ Scenario.minuteOf (Transaction.timestamp (Scenario.sale 12)) = 12%Z
  ∧ ∃ st opened,
      TransactionHistory.mount Scenario.minuteOf (Some "TR-12")
        (Some Sample.cashier) Scenario.history
      = Some st
      ∧ length (TransactionHistory.transactions st) = 23%nat
      ∧ (Scenario.elsewhere 12 ∉ TransactionHistory.transactions st)
      ∧ TransactionHistory.selectedTransaction st = Some opened
      ∧ opened ∈ Scenario.sales
      ∧ Transaction.id opened = "TR-12".
Proof.
  split; [reflexivity|]. split; [reflexivity|].
  destruct (history_loads_store_transactions Scenario.minuteOf (Some "TR-12")
              (Some Sample.cashier) Scenario.history) as [_ Hsome].
  destruct (Hsome _ eq_refl)
    as (st & Hm & Hperm & Hin & _ & Hhigh & Hopen & Hnone).
  assert (H12 : Scenario.sale 12 ∈ TransactionHistory.transactions st).
  { apply Hin. split; [|reflexivity].
    apply elem_of_cons. right. apply elem_of_app. left.
    apply list_elem_of_In. vm_compute. tauto. }
  destruct (TransactionHistory.selectedTransaction st) as [opened|] eqn:Es.
  - exists st, opened. split; [exact Hm|].
    split; [by rewrite Hperm|].
    split; [intros Hx; apply Hin in Hx as [_ Hx]; discriminate Hx|].
    split; [exact Es|].
    destruct (Hopen opened eq_refl) as [Ho Hid].
    rewrite Hhigh in Hid. injection Hid as Hid.
    split; [|by rewrite <- Hid].
    apply Hin in Ho as [Ho Hs].
    apply elem_of_cons in Ho as [->|Ho]; [discriminate Hs|].
    apply elem_of_app in Ho as [Ho|Ho]; [exact Ho|].
    apply list_elem_of_singleton in Ho as ->. discriminate Hs.
  - exfalso. apply (Hnone eq_refl (Scenario.sale 12) H12).
    by rewrite Hhigh.
Defined.

Lemma history_opens_new_transaction_witness :
  user_storeId (Some Sample.cashier) = Some "1"
  ∧ POSInterface.isHolidayMode Sample.pos = false
  ∧ POSInterface.cart Sample.pos ≠ []
  ∧ POSInterface.savedTransactions (Sample.world online []) = Some []
  ∧ location
      (snd (POSInterface.handleCheckout Sample.plainLocale
              (Some Sample.cashier) Sample.posClock
              (Sample.pos, Sample.world online [])))
    = Some ("/pos/history?transactionId="
            +:+ Transaction.id
                  (POSInterface.newTransaction (Some Sample.cashier)
                     Sample.posClock Sample.pos)).
Proof.
  split; [reflexivity|]. split; [reflexivity|]. split; [discriminate|].
  split; [reflexivity|].
  exact (proj1 (history_opens_new_transaction Scenario.minuteOf
                  Sample.plainLocale (Some Sample.cashier) "1"
                  Sample.posClock Sample.pos (Sample.world online []) []
                  eq_refl eq_refl ltac:(discriminate) eq_refl)).
Defined.

Lemma history_hides_sales_without_store_witness :
  user_storeId (Some Scenario.floater) = None
  ∧ POSInterface.isHolidayMode Sample.pos = false
  ∧ POSInterface.cart Sample.pos ≠ []
  ∧ POSInterface.savedTransactions (Sample.world online []) = Some []
  ∧ Transaction.storeId
      (POSInterface.newTransaction (Some Scenario.floater) Sample.posClock
         Sample.pos)
    = "".
Proof.
  split; [reflexivity|]. split; [reflexivity|]. split; [discriminate|].
  split; [reflexivity|].
  exact (proj1 (proj2 (history_hides_sales_without_store Scenario.minuteOf
                         Sample.plainLocale (Some Scenario.floater)
                         Sample.posClock Sample.pos (Sample.world online [])
                         [] eq_refl eq_refl ltac:(discriminate) eq_refl))).
Defined.
